(** * RAG middleware (tools/server/rag_middleware.{hpp,cpp})

    A shallow embedding of the middleware that sits between the chat
    pipeline and the Aurapai retrieval service, and the properties of it
    that the specification states.

    Conventions of the embedding.
    - [std::string] is [string]; [int], [size_t] and clock ticks are [Z] or
      [nat]; C++ [float] and [double] are kept abstract ([FloatRepr]),
      because no property below depends on rounding.
    - [nlohmann::json] is the inductive type [json]; the accessors the
      middleware calls ([value], [contains], [operator[]], [get<T>],
      range-[for]) are functions on it that return [result] where the
      library throws.
    - Member functions run in the monad [Prog RAGMiddleware]: the state is
      the object ([config_], [http_client_], [config_mutex_]), the writer
      part is the trace of lock, configuration, connection and network
      events, and the outcome says whether the call returned, threw, or
      blocked on [config_mutex_].
    - The transport ([httplib]), the JSON parser and serializer, and the
      build flag CPPHTTPLIB_OPENSSL_SUPPORT are the fields of [World];
      the readings of the clocks are arguments of the functions that take
      them.
    - A scalar member that was never assigned is [None].
    - [LOG_INF] and [LOG_ERR] calls are not modelled. *)

From Stdlib Require Import String Ascii List ZArith Lia Bool DecimalString.
Import ListNotations.
Local Open Scope list_scope.
Local Open Scope string_scope.
Local Set Warnings "-register-all".

(* ================================================================== *)
(** ** Exceptions and fallible results *)

(** The exceptions the middleware can meet: the two families of
    [nlohmann::json::exception] it can trigger, and any other
    [std::exception]. *)
Inductive exception : Type :=
| type_error (id : nat) (msg : string)
| parse_error (id : nat) (msg : string)
| std_exception (msg : string).

Definition string_of_nat (n : nat) : string :=
  NilEmpty.string_of_uint (Nat.to_uint n).

(** [e.what()] *)
Definition what (e : exception) : string :=
  match e with
  | type_error id msg =>
      "[json.exception.type_error." ++ string_of_nat id ++ "] " ++ msg
  | parse_error id msg =>
      "[json.exception.parse_error." ++ string_of_nat id ++ "] " ++ msg
  | std_exception msg => msg
  end.

Inductive result (A : Type) : Type :=
| Ok (a : A)
| Raise (e : exception).
Arguments Ok {A} a.
Arguments Raise {A} e.

Definition result_bind {A B} (r : result A) (k : A -> result B) : result B :=
  match r with
  | Ok a => k a
  | Raise e => Raise e
  end.

(** The line feed that the source writes as a backslash followed by n. *)
Definition LF : string := String "010"%char EmptyString.

(* ================================================================== *)
(** ** Floating point, kept abstract *)

Class FloatRepr : Type := {
  c_float : Type;
  c_double : Type;
  (** conversion of an integer, as in [static_cast<float>(n)]; the
      literal [0.0f] is [float_of_int 0] *)
  float_of_int : Z -> c_float;
  float_of_double : c_double -> c_float;
  double_of_float : c_float -> c_double;
  (** [oss << f] at the stream's default precision *)
  stream_float : c_float -> string
}.

(* ================================================================== *)
(** ** nlohmann::json values and the accessors the middleware uses *)

Section Json.
Context {F : FloatRepr}.

Inductive json : Type :=
| JNull
| JBool (b : bool)
| JInt (z : Z)
| JUInt (z : Z)
| JFloat (d : c_double)
| JStr (s : string)
| JArr (l : list json)
| JObj (m : list (string * json)).

(** [j.type_name()] *)
Definition type_name (j : json) : string :=
  match j with
  | JNull => "null"
  | JBool _ => "boolean"
  | JInt _ | JUInt _ | JFloat _ => "number"
  | JStr _ => "string"
  | JArr _ => "array"
  | JObj _ => "object"
  end.

Definition is_array (j : json) : bool :=
  match j with JArr _ => true | _ => false end.

Definition is_string (j : json) : bool :=
  match j with JStr _ => true | _ => false end.

(** [j.empty()]: null is empty, a primitive never is. *)
Definition json_empty (j : json) : bool :=
  match j with
  | JNull => true
  | JArr l => match l with [] => true | _ => false end
  | JObj m => match m with [] => true | _ => false end
  | _ => false
  end.

(** [m.find(key)] on the members of an object. *)
Fixpoint obj_find (key : string) (m : list (string * json)) : option json :=
  match m with
  | [] => None
  | (k, v) :: m' => if (k =? key)%string then Some v else obj_find key m'
  end.

(** [j.contains(key)]: false on anything that is not an object. *)
Definition contains (j : json) (key : string) : bool :=
  match j with
  | JObj m => match obj_find key m with Some _ => true | None => false end
  | _ => false
  end.

(** [j[key]] on a [const] value.  The source only evaluates it under
    [j.contains(key)]; outside that precondition the library's behaviour
    is undefined and the model answers [JNull]. *)
Definition const_at (j : json) (key : string) : json :=
  match j with
  | JObj m => match obj_find key m with Some v => v | None => JNull end
  | _ => JNull
  end.

(** The elements a range-[for] over [j] visits: the elements of an array,
    the member values of an object, nothing for null, and a primitive
    itself, once. *)
Definition items (j : json) : list json :=
  match j with
  | JNull => []
  | JArr l => l
  | JObj m => map snd m
  | _ => [j]
  end.

(** [j.get<std::string>()] *)
Definition get_string (j : json) : result string :=
  match j with
  | JStr s => Ok s
  | _ => Raise (type_error 302 ("type must be string, but is " ++ type_name j))
  end.

(** [j.get<bool>()] *)
Definition get_bool (j : json) : result bool :=
  match j with
  | JBool b => Ok b
  | _ => Raise (type_error 302 ("type must be boolean, but is " ++ type_name j))
  end.

(** [j.get<float>()]: every number converts, and so does a boolean. *)
Definition get_float (j : json) : result c_float :=
  match j with
  | JInt z | JUInt z => Ok (float_of_int z)
  | JFloat d => Ok (float_of_double d)
  | JBool b => Ok (float_of_int (if b then 1 else 0))
  | _ => Raise (type_error 302 ("type must be number, but is " ++ type_name j))
  end.

(** [j.value(key, default)], for a conversion [get]: the converted member
    when the key is there, the default when it is not, a type error when
    [j] is not an object. *)
Definition value {A} (get : json -> result A) (j : json) (key : string)
    (default : A) : result A :=
  match j with
  | JObj m =>
      match obj_find key m with
      | Some v => get v
      | None => Ok default
      end
  | _ => Raise (type_error 306 ("cannot use value() with " ++ type_name j))
  end.

(** [j == "text"] *)
Definition json_eq_str (j : json) (s : string) : bool :=
  match j with
  | JStr s' => (s' =? s)%string
  | _ => false
  end.

(** Insertion into the sorted members of an object ([std::map]): the
    binding of [key] is replaced where there is one, and otherwise put
    before the first larger key. *)
Fixpoint obj_set (key : string) (v : json) (m : list (string * json))
    : list (string * json) :=
  match m with
  | [] => [(key, v)]
  | (k, w) :: m' =>
      if (k =? key)%string then (key, v) :: m'
      else if String.ltb key k then (key, v) :: (k, w) :: m'
      else (k, w) :: obj_set key v m'
  end.

(** [j[key] = v] on a mutable value: null becomes an object first, an
    object is updated, anything else is a type error. *)
Definition assign_at (j : json) (key : string) (v : json) : result json :=
  match j with
  | JNull => Ok (JObj [(key, v)])
  | JObj m => Ok (JObj (obj_set key v m))
  | _ => Raise (type_error 305
           ("cannot use operator[] with a string argument with " ++ type_name j))
  end.

End Json.

(* ================================================================== *)
(** ** The data model (rag_middleware.hpp) *)

Section DataModel.
Context {F : FloatRepr}.

Record RAGConfig : Type := {
  aurapai_host : string;
  aurapai_port : Z;
  max_results : Z;
  similarity_threshold : c_float;
  include_tools : bool;
  timeout_ms : Z;
  enabled : bool
}.

Record ContextChunk : Type := {
  content : string;
  source : string;
  similarity : c_float
}.

(** A scalar member of a default-initialised struct holds an
    indeterminate value until it is assigned: [latency_ms] and [success]
    are [None] until then. *)
Record RAGResponse : Type := {
  augmented_context : string;
  chunks : list ContextChunk;
  suggested_tools : list string;
  latency_ms : option c_float;
  success : option bool;
  error_message : string
}.

(** [RAGResponse response;] *)
Definition RAGResponse_decl : RAGResponse :=
  {| augmented_context := ""; chunks := []; suggested_tools := [];
     latency_ms := None; success := None; error_message := "" |}.

Definition set_augmented_context (v : string) (r : RAGResponse) :=
  {| augmented_context := v; chunks := chunks r;
     suggested_tools := suggested_tools r; latency_ms := latency_ms r;
     success := success r; error_message := error_message r |}.

Definition push_chunk (c : ContextChunk) (r : RAGResponse) :=
  {| augmented_context := augmented_context r; chunks := (chunks r ++ [c])%list;
     suggested_tools := suggested_tools r; latency_ms := latency_ms r;
     success := success r; error_message := error_message r |}.

Definition push_tool (t : string) (r : RAGResponse) :=
  {| augmented_context := augmented_context r; chunks := chunks r;
     suggested_tools := (suggested_tools r ++ [t])%list; latency_ms := latency_ms r;
     success := success r; error_message := error_message r |}.

Definition set_latency_ms (v : c_float) (r : RAGResponse) :=
  {| augmented_context := augmented_context r; chunks := chunks r;
     suggested_tools := suggested_tools r; latency_ms := Some v;
     success := success r; error_message := error_message r |}.

Definition set_success (v : bool) (r : RAGResponse) :=
  {| augmented_context := augmented_context r; chunks := chunks r;
     suggested_tools := suggested_tools r; latency_ms := latency_ms r;
     success := Some v; error_message := error_message r |}.

Definition set_error_message (v : string) (r : RAGResponse) :=
  {| augmented_context := augmented_context r; chunks := chunks r;
     suggested_tools := suggested_tools r; latency_ms := latency_ms r;
     success := success r; error_message := v |}.

(** What the middleware fixes of an [httplib] client: the class
    ([SSLClient] or plain [Client]), the target, and the options it sets
    ([None] where the library default is left in place). *)
Record Client : Type := {
  cl_ssl : bool;
  cl_host : string;
  cl_port : Z;
  cl_verify_certificate : option bool;
  cl_ca_cert_path : option string;
  cl_read_timeout : option (Z * Z);
  cl_write_timeout : option (Z * Z)
}.

(** [httplib::Client(host, port)] and [httplib::SSLClient(host, port)] *)
Definition new_Client (ssl : bool) (host : string) (port : Z) : Client :=
  {| cl_ssl := ssl; cl_host := host; cl_port := port;
     cl_verify_certificate := None; cl_ca_cert_path := None;
     cl_read_timeout := None; cl_write_timeout := None |}.

Definition enable_server_certificate_verification (b : bool) (c : Client) :=
  {| cl_ssl := cl_ssl c; cl_host := cl_host c; cl_port := cl_port c;
     cl_verify_certificate := Some b; cl_ca_cert_path := cl_ca_cert_path c;
     cl_read_timeout := cl_read_timeout c;
     cl_write_timeout := cl_write_timeout c |}.

Definition set_ca_cert_path (p : string) (c : Client) :=
  {| cl_ssl := cl_ssl c; cl_host := cl_host c; cl_port := cl_port c;
     cl_verify_certificate := cl_verify_certificate c;
     cl_ca_cert_path := Some p;
     cl_read_timeout := cl_read_timeout c;
     cl_write_timeout := cl_write_timeout c |}.

Definition set_read_timeout (sec usec : Z) (c : Client) :=
  {| cl_ssl := cl_ssl c; cl_host := cl_host c; cl_port := cl_port c;
     cl_verify_certificate := cl_verify_certificate c;
     cl_ca_cert_path := cl_ca_cert_path c;
     cl_read_timeout := Some (sec, usec);
     cl_write_timeout := cl_write_timeout c |}.

Definition set_write_timeout (sec usec : Z) (c : Client) :=
  {| cl_ssl := cl_ssl c; cl_host := cl_host c; cl_port := cl_port c;
     cl_verify_certificate := cl_verify_certificate c;
     cl_ca_cert_path := cl_ca_cert_path c;
     cl_read_timeout := cl_read_timeout c;
     cl_write_timeout := Some (sec, usec) |}.

(** The private members of the class. [config_mutex_] is [true] while the
    mutex is held. *)
Record RAGMiddleware : Type := {
  config_ : RAGConfig;
  http_client_ : option Client;
  config_mutex_ : bool
}.

(** What a member function does that another thread, or the network, can
    see. *)
Inductive event : Type :=
| EvLock
| EvUnlock
| EvConfigRead
| EvConfigWrite
| EvClientRead
| EvClientWrite
| EvPost (c : Client) (path body content_type : string)
| EvGet (c : Client) (path : string).

Definition is_network (e : event) : bool :=
  match e with
  | EvPost _ _ _ _ | EvGet _ _ => true
  | _ => false
  end.

(** A [httplib::Result]: [None] when there is no response ([!res]),
    otherwise the status and the body. *)
Definition http_result : Type := option (Z * string).

(** The collaborators outside the middleware. *)
Record World : Type := {
  http_Post : Client -> string -> string -> string -> http_result;
  http_Get : Client -> string -> http_result;
  json_parse : string -> result json;
  json_dump : json -> result string;
  openssl_support : bool
}.

End DataModel.

(* ================================================================== *)
(** ** The monad of member functions *)

Section Monad.
Context {F : FloatRepr}.

Inductive outcome (A : Type) : Type :=
| Returned (a : A)
| Thrown (e : exception)
| Blocked.
Arguments Returned {A} a.
Arguments Thrown {A} e.
Arguments Blocked {A}.

Definition Prog (S A : Type) : Type := S -> list event * S * outcome A.

Definition ret {S A} (a : A) : Prog S A :=
  fun s => ([], s, Returned a).

Definition bind {S A B} (m : Prog S A) (k : A -> Prog S B) : Prog S B :=
  fun s =>
    match m s with
    | (t1, s1, Returned a) =>
        match k a s1 with
        | (t2, s2, o) => ((t1 ++ t2)%list, s2, o)
        end
    | (t1, s1, Thrown e) => (t1, s1, Thrown e)
    | (t1, s1, Blocked) => (t1, s1, Blocked)
    end.

Definition throw {S A} (e : exception) : Prog S A :=
  fun s => ([], s, Thrown e).

(** A library call that returns or throws. *)
Definition lift {S A} (r : result A) : Prog S A :=
  match r with
  | Ok a => ret a
  | Raise e => throw e
  end.

Definition modify {S} (f : S -> S) : Prog S unit :=
  fun s => ([], f s, Returned tt).

(** [try { m } catch (const std::exception& e) { h e }] *)
Definition try_catch {S A} (m : Prog S A) (h : exception -> Prog S A)
    : Prog S A :=
  fun s =>
    match m s with
    | (t1, s1, Thrown e) =>
        match h e s1 with
        | (t2, s2, o) => ((t1 ++ t2)%list, s2, o)
        end
    | r => r
    end.

(** [m], then [cleanup] on the way out, whether [m] returned or threw
    (a destructor at the end of a scope). *)
Definition finally {S A} (m : Prog S A) (cleanup : Prog S unit) : Prog S A :=
  fun s =>
    match m s with
    | (t1, s1, Blocked) => (t1, s1, Blocked)
    | (t1, s1, o) =>
        match cleanup s1 with
        | (t2, s2, _) => ((t1 ++ t2)%list, s2, o)
        end
    end.

(** A loop over the elements of a container. *)
Fixpoint for_each {S A} (l : list A) (body : A -> Prog S unit) : Prog S unit :=
  match l with
  | [] => ret tt
  | x :: l' => bind (body x) (fun _ => for_each l' body)
  end.

Definition trace_of {S A} (r : list event * S * outcome A) : list event :=
  fst (fst r).
Definition state_of {S A} (r : list event * S * outcome A) : S :=
  snd (fst r).
Definition outcome_of {S A} (r : list event * S * outcome A) : outcome A :=
  snd r.

End Monad.

Arguments Returned {A} a.
Arguments Thrown {A} e.
Arguments Blocked {A}.

Declare Scope prog_scope.
Delimit Scope prog_scope with prog.
Notation "x <- m ;; k" := (bind m (fun x => k))
  (at level 61, m at next level, right associativity) : prog_scope.
Notation "m ;; k" := (bind m (fun _ => k))
  (at level 61, right associativity) : prog_scope.

(* ================================================================== *)
(** ** The middleware (rag_middleware.cpp) *)

Section Middleware.
Context {F : FloatRepr}.
Variable W : World.
(** Ticks of [std::chrono::high_resolution_clock] in a millisecond. *)
Variable ticks_per_ms : Z.

Local Open Scope prog_scope.

(** *** Access to the members *)

Definition read_config {A} (field : RAGConfig -> A) : Prog RAGMiddleware A :=
  fun s => ([EvConfigRead], s, Returned (field (config_ s))).

Definition write_config (config : RAGConfig) : Prog RAGMiddleware unit :=
  fun s => ([EvConfigWrite],
            {| config_ := config; http_client_ := http_client_ s;
               config_mutex_ := config_mutex_ s |},
            Returned tt).

Definition read_client : Prog RAGMiddleware (option Client) :=
  fun s => ([EvClientRead], s, Returned (http_client_ s)).

Definition write_client (c : Client) : Prog RAGMiddleware unit :=
  fun s => ([EvClientWrite],
            {| config_ := config_ s; http_client_ := Some c;
               config_mutex_ := config_mutex_ s |},
            Returned tt).

(** [http_client_->f(...)] for a setter [f]; a null handle is left as it
    is (the source calls the setters right after it has stored a handle). *)
Definition update_client (f : Client -> Client) : Prog RAGMiddleware unit :=
  fun s => ([EvClientWrite],
            {| config_ := config_ s;
               http_client_ := option_map f (http_client_ s);
               config_mutex_ := config_mutex_ s |},
            Returned tt).

Definition set_mutex (held : bool) (s : RAGMiddleware) : RAGMiddleware :=
  {| config_ := config_ s; http_client_ := http_client_ s;
     config_mutex_ := held |}.

(** [config_mutex_.lock()]: [std::mutex] is not recursive.  Locking it
    again from the thread that holds it is undefined behaviour; the model
    takes the usual outcome, a call that never returns. *)
Definition lock : Prog RAGMiddleware unit :=
  fun s => if config_mutex_ s then ([], s, Blocked)
           else ([EvLock], set_mutex true s, Returned tt).

Definition unlock : Prog RAGMiddleware unit :=
  fun s => ([EvUnlock], set_mutex false s, Returned tt).

(** [std::lock_guard<std::mutex> lock(config_mutex_);] followed by the
    rest of its scope. *)
Definition lock_guard {A} (scope : Prog RAGMiddleware A)
    : Prog RAGMiddleware A :=
  lock ;; finally scope unlock.

Definition Post (c : Client) (path body content_type : string)
    : Prog RAGMiddleware http_result :=
  fun s => ([EvPost c path body content_type], s,
            Returned (http_Post W c path body content_type)).

Definition Get (c : Client) (path : string) : Prog RAGMiddleware http_result :=
  fun s => ([EvGet c path], s, Returned (http_Get W c path)).

(** *** init_http_client *)

(** [s.find(p) == 0] *)
Definition find_at_0 (p s : string) : bool :=
  match index 0 p s with
  | Some O => true
  | _ => false
  end.

(** [s.substr(n)], for [n] within [s] *)
Definition substr (n : nat) (s : string) : string :=
  substring n (String.length s - n) s.

(** [s.back()] *)
Definition back (s : string) : option ascii :=
  String.get (String.length s - 1) s.

(** [s.pop_back()] *)
Definition pop_back (s : string) : string :=
  substring 0 (String.length s - 1) s.

Definition string_empty (s : string) : bool :=
  match s with EmptyString => true | _ => false end.

(** Lines 31 to 54: the scheme, the host and the port the connection is
    built for.  ([url_has_scheme] is set there and never read.) *)
Definition connection_target (config_host : string) (config_port : Z)
    : bool * string * Z :=
  let '(use_https, host, port) :=
    if find_at_0 "https://" config_host then
      (true, substr 8 config_host, 443%Z)
    else if find_at_0 "http://" config_host then
      (false, substr 7 config_host, 80%Z)
    else (false, config_host, config_port) in
  let host :=
    if negb (string_empty host)
       && match back host with
          | Some c => Ascii.eqb c "/"%char
          | None => false
          end
    then pop_back host else host in
  (use_https, host, port).

Definition init_http_client : Prog RAGMiddleware unit :=
  lock_guard (
    config_host <- read_config aurapai_host ;;
    config_port <- read_config aurapai_port ;;
    match connection_target config_host config_port with
    | (use_https, host, port) =>
        (if use_https then
           if openssl_support W then
             write_client
               (set_ca_cert_path "/etc/ssl/certs"
                  (enable_server_certificate_verification true
                     (new_Client true host port)))
           else write_client (new_Client false host port)
         else write_client (new_Client false host port)) ;;
        t1 <- read_config timeout_ms ;;
        t2 <- read_config timeout_ms ;;
        update_client
          (set_read_timeout (Z.quot t1 1000) (Z.rem t2 1000 * 1000)%Z) ;;
        t3 <- read_config timeout_ms ;;
        t4 <- read_config timeout_ms ;;
        update_client
          (set_write_timeout (Z.quot t3 1000) (Z.rem t4 1000 * 1000)%Z)
    end).

(** The constructor: the members are initialised, then the connection is
    built when the feature is on. *)
Definition RAGMiddleware_new (config : RAGConfig)
    : list event * RAGMiddleware * outcome unit :=
  (is_enabled <- read_config enabled ;;
   if is_enabled then init_http_client else ret tt)
  {| config_ := config; http_client_ := None; config_mutex_ := false |}.

(** *** make_request *)

Definition make_request (endpoint : string) (body : json)
    : Prog RAGMiddleware (option json) :=
  lock_guard (
    handle <- read_client ;;
    match handle with
    | None => ret None
    | Some client =>
        try_catch (
          json_str <- lift (json_dump W body) ;;
          res <- Post client endpoint json_str "application/json" ;;
          match res with
          | None => ret None
          | Some (status, res_body) =>
              if negb (status =? 200)%Z then ret None
              else
                parsed <- lift (json_parse W res_body) ;;
                ret (Some parsed)
          end)
          (fun e => ret None)
    end).

(** *** parse_response *)

Definition parse_chunk (chunk_json : json) : Prog RAGResponse unit :=
  chunk_content <- lift (value get_string chunk_json "content" "") ;;
  chunk_source <- lift (value get_string chunk_json "source" "unknown") ;;
  chunk_similarity <-
    lift (value get_float chunk_json "similarity" (float_of_int 0)) ;;
  modify (push_chunk {| content := chunk_content; source := chunk_source;
                        similarity := chunk_similarity |}).

Definition parse_tool (tool : json) : Prog RAGResponse unit :=
  if is_string tool then
    name <- lift (get_string tool) ;;
    modify (push_tool name)
  else ret tt.

(** The [try] block of [parse_response]. *)
Definition parse_fields (json_response : json) : Prog RAGResponse unit :=
  context <- lift (value get_string json_response "augmented_context" "") ;;
  modify (set_augmented_context context) ;;
  latency <- lift (value get_float json_response "latency_ms" (float_of_int 0)) ;;
  modify (set_latency_ms latency) ;;
  (if contains json_response "chunks" then
     for_each (items (const_at json_response "chunks")) parse_chunk
   else ret tt) ;;
  (if contains json_response "suggested_tools" then
     for_each (items (const_at json_response "suggested_tools")) parse_tool
   else ret tt).

Definition parse_response (json_response : json) : RAGResponse :=
  state_of
    ((modify (set_success true) ;;
      try_catch (parse_fields json_response)
        (fun e =>
           modify (set_success false) ;;
           modify (set_error_message ("Parse error: " ++ what e))))
     RAGResponse_decl).

(** *** augment_query *)

(** The request of lines 107 to 116. *)
Definition build_request (query session_id : string) (n : Z)
    (threshold : c_float) (tools : bool) : result json :=
  let request_body :=
    JObj (obj_set "include_tools" (JBool tools)
            (obj_set "similarity_threshold" (JFloat (double_of_float threshold))
               (obj_set "max_results" (JInt n)
                  (obj_set "query" (JStr query) [])))) in
  if negb (string_empty session_id) then
    assign_at request_body "session_id" (JStr session_id)
  else Ok request_body.

(** [start_time] and [end_time] are the two readings of the clock, taken
    at lines 103 and 133. *)
Definition augment_query (start_time end_time : Z) (query session_id : string)
    : Prog RAGMiddleware RAGResponse :=
  let response := set_success false RAGResponse_decl in
  is_enabled <- read_config enabled ;;
  if negb is_enabled then ret (set_error_message "RAG disabled" response)
  else if string_empty query then
    ret (set_error_message "Empty query" response)
  else
    response <-
      try_catch (
        n <- read_config max_results ;;
        threshold <- read_config similarity_threshold ;;
        tools <- read_config include_tools ;;
        request_body <- lift (build_request query session_id n threshold tools) ;;
        json_response <- make_request "/api/v1/llama/augment" request_body ;;
        match json_response with
        | Some payload => ret (set_success true (parse_response payload))
        | None =>
            ret (set_error_message "Failed to get response from Aurapai"
                   response)
        end)
        (fun e => ret (set_error_message ("Exception: " ++ what e) response)) ;;
    let duration := Z.quot (end_time - start_time) ticks_per_ms in
    ret (set_latency_ms (float_of_int duration) response).

(** *** is_healthy, update_config, get_config *)

Definition is_healthy : Prog RAGMiddleware bool :=
  is_enabled <- read_config enabled ;;
  if negb is_enabled then ret false
  else
    try_catch (
      lock_guard (
        handle <- read_client ;;
        match handle with
        | None => ret false
        | Some client =>
            res <- Get client "/api/v1/llama/health" ;;
            match res with
            | Some (status, res_body) =>
                if (status =? 200)%Z then
                  try_catch (
                    parsed <- lift (json_parse W res_body) ;;
                    lift (value get_bool parsed "ready" false))
                    (fun _ => ret false)
                else ret false
            | None => ret false
            end
        end))
      (fun e => ret false).

(** The three comparisons of lines 176 to 178, with the short circuit of
    [||]. *)
Definition need_reinit (config : RAGConfig) : Prog RAGMiddleware bool :=
  old_host <- read_config aurapai_host ;;
  if negb (aurapai_host config =? old_host)%string then ret true
  else
    old_port <- read_config aurapai_port ;;
    if negb (aurapai_port config =? old_port)%Z then ret true
    else
      old_enabled <- read_config enabled ;;
      ret (negb (Bool.eqb (enabled config) old_enabled)).

Definition update_config (config : RAGConfig) : Prog RAGMiddleware unit :=
  lock_guard (
    reinit <- need_reinit config ;;
    write_config config ;;
    if reinit then
      now_enabled <- read_config enabled ;;
      if now_enabled then init_http_client else ret tt
    else ret tt).

(** The caller reads the configuration through the reference it gets. *)
Definition get_config : Prog RAGMiddleware RAGConfig :=
  read_config (fun c => c).

End Middleware.

(* ================================================================== *)
(** ** The helpers without state *)

Section Helpers.
Context {F : FloatRepr}.

(** The fields of [std::tm] that the format reads. *)
Record tm : Type := {
  tm_year : Z;
  tm_mon : Z;
  tm_mday : Z
}.

Definition string_of_Z (z : Z) : string :=
  NilEmpty.string_of_int (Z.to_int z).

(** A number in a field of width two, filled with a zero. *)
Definition two_digits (z : Z) : string :=
  if ((0 <=? z) && (z <? 10))%Z then "0" ++ string_of_Z z else string_of_Z z.

(** [std::put_time(&tm, "%Y-%m-%d")] *)
Definition put_time_Ymd (t : tm) : string :=
  string_of_Z (tm_year t + 1900) ++ "-" ++ two_digits (tm_mon t + 1)
  ++ "-" ++ two_digits (tm_mday t).

(** The string of lines 267 to 282; [now] is the local time the clock
    gives. *)
Definition injection_of (now : tm) (rag_context : string) : string :=
  if string_empty rag_context then
    "" ++ "[System Note] Current date: " ++ put_time_Ymd now
  else rag_context.

(** The test of line 292: the turn has a member [role] and it equals the
    text [user]. *)
Definition is_user_turn (it : json) : bool :=
  contains it "role" && json_eq_str (const_at it "role") "user".

(** The loop of lines 291 to 300, over the turns from the last one. *)
Fixpoint inject_from_back (injection : string) (rev_turns : list json)
    : result (list json) :=
  match rev_turns with
  | [] => Ok []
  | it :: earlier =>
      if is_user_turn it then
        result_bind (value get_string it "content" "")
          (fun original_content =>
        result_bind
          (assign_at it "content"
             (JStr ((injection ++ (LF ++ LF ++ "User Query: "))
                    ++ original_content)))
          (fun it' => Ok (it' :: earlier)))
      else
        result_bind (inject_from_back injection earlier)
          (fun earlier' => Ok (it :: earlier'))
  end.

Definition inject_context_into_messages (now : tm) (messages : json)
    (rag_context : string) : result json :=
  let injection := injection_of now rag_context in
  match messages with
  | JArr turns =>
      result_bind (inject_from_back injection (rev turns))
        (fun rev_modified => Ok (JArr (rev rev_modified)))
  | _ => Ok messages
  end.

(** The loop of lines 320 to 324. *)
Fixpoint any_user_turn (turns : list json) : bool :=
  match turns with
  | [] => false
  | msg :: later => if is_user_turn msg then true else any_user_turn later
  end.

Definition should_use_rag (messages params : json) : result bool :=
  if contains params "rag_enabled" then
    get_bool (const_at params "rag_enabled")
  else if negb (is_array messages) || json_empty messages then Ok false
  else Ok (any_user_turn (items messages)).

(** The loop of lines 337 to 341: [i] is the index of the first chunk of
    [todo], [oss] what the stream holds. *)
Fixpoint format_chunks (i : nat) (todo : list ContextChunk) (oss : string)
    : string :=
  match todo with
  | [] => oss
  | chunk :: later =>
      let oss :=
        ((((((oss ++ LF ++ "[Source ") ++ string_of_nat (i + 1)) ++ ": ")
            ++ source chunk) ++ " (relevance: ")
          ++ stream_float (similarity chunk)) ++ ")]" ++ LF in
      let oss := (oss ++ content chunk) ++ LF in
      format_chunks (S i) later oss
  end.

Definition format_rag_context (chunks : list ContextChunk) : string :=
  match chunks with
  | [] => ""
  | _ =>
      let oss := "" ++ "[Retrieved Context]" ++ LF in
      let oss := format_chunks 0 chunks oss in
      oss ++ LF ++ "[End Retrieved Context]" ++ LF
  end.

End Helpers.

(* ================================================================== *)
(** ** The vocabulary of the properties *)

Section Vocabulary.
Context {F : FloatRepr}.

(** *** Transcripts *)

(** The member [key] of an object. *)
Definition member (key : string) (j : json) : option json :=
  match j with
  | JObj m => obj_find key m
  | _ => None
  end.

(** The turn has the role [role]. *)
Definition role_is (role : string) (turn : json) : Prop :=
  member "role" turn = Some (JStr role).

(** The text of a turn; a turn without [content] counts as the empty
    text, and there is none when [content] is not text. *)
Definition text_content (turn : json) : option string :=
  match turn with
  | JObj m =>
      match obj_find "content" m with
      | Some (JStr c) => Some c
      | Some _ => None
      | None => Some ""
      end
  | _ => None
  end.

(** The transcript is a sequence in which some turn has the role [user]. *)
Definition transcript_has_user (messages : json) : Prop :=
  exists turns turn,
    messages = JArr turns /\ In turn turns /\ role_is "user" turn.

(** The claim on [should_use_rag] as the specification words it: a
    boolean comes back for every input; it is the boolean [rag_enabled]
    when [params] carries one, and otherwise it says whether the
    transcript has a user turn. *)
Definition policy_gate_claim (messages params : json) : Prop :=
  exists b,
    should_use_rag messages params = Ok b
    /\ match member "rag_enabled" params with
       | Some (JBool v) => b = v
       | _ => b = true <-> transcript_has_user messages
       end.

(** *** Dates *)

Definition is_digit (c : ascii) : bool :=
  ((48 <=? nat_of_ascii c) && (nat_of_ascii c <=? 57))%nat.

Definition digits4 (s : string) : bool :=
  match s with
  | String a (String b (String c (String d EmptyString))) =>
      forallb is_digit [a; b; c; d]
  | _ => false
  end.

Definition digits2 (s : string) : bool :=
  match s with
  | String a (String b EmptyString) => forallb is_digit [a; b]
  | _ => false
  end.

(** The form YYYY-MM-DD. *)
Definition is_iso_date (s : string) : bool :=
  match s with
  | String y1 (String y2 (String y3 (String y4 (String h1
      (String m1 (String m2 (String h2 (String d1 (String d2 rest))))))))) =>
      digits4 (String y1 (String y2 (String y3 (String y4 EmptyString))))
      && Ascii.eqb h1 "-" && digits2 (String m1 (String m2 EmptyString))
      && Ascii.eqb h2 "-" && digits2 (String d1 (String d2 EmptyString))
      && string_empty rest
  | _ => false
  end.

(** A calendar date of a year of four digits. *)
Definition calendar_date (t : tm) : Prop :=
  (1000 <= tm_year t + 1900 <= 9999)%Z
  /\ (0 <= tm_mon t <= 11)%Z /\ (1 <= tm_mday t <= 31)%Z.

(** The number a run of decimal digits stands for. *)
Definition digit_value (c : ascii) : Z := Z.of_nat (nat_of_ascii c) - 48.

Fixpoint decimal_value_from (acc : Z) (s : string) : Z :=
  match s with
  | EmptyString => acc
  | String c s' => decimal_value_from (10 * acc + digit_value c) s'
  end.

Definition decimal_value (s : string) : Z := decimal_value_from 0 s.

(** [s] is the date of the year [year], the month [month] (from 1) and
    the day [day] in the form YYYY-MM-DD: four digits that stand for the
    year, a hyphen, two digits that stand for the month, a hyphen, and
    two digits that stand for the day. *)
Definition date_text (year month day : Z) (s : string) : Prop :=
  exists y m d,
    s = y ++ "-" ++ m ++ "-" ++ d
    /\ digits4 y = true /\ digits2 m = true /\ digits2 d = true
    /\ decimal_value y = year /\ decimal_value m = month
    /\ decimal_value d = day.

(** The claim on [inject_context_into_messages] as the specification
    words it, for a transcript whose last turn with the role [user] is
    [turn]: the call returns the transcript in which the content of that
    turn is the injection, the separator and the original content, with
    every other turn as given. *)
Definition injector_claim (now : tm) (before : list json) (turn : json)
    (after : list json) (rag_context : string) : Prop :=
  exists turn' original,
    inject_context_into_messages now (JArr (before ++ turn :: after))
      rag_context
    = Ok (JArr (before ++ turn' :: after))
    /\ member "content" turn'
       = Some (JStr (injection_of now rag_context ++ LF ++ LF
                     ++ "User Query: " ++ original)).

(** *** The formatted context *)

(** The numbered line of a chunk, without its brackets. *)
Definition source_line (n : nat) (c : ContextChunk) : string :=
  "Source " ++ string_of_nat n ++ ": " ++ source c ++ " (relevance: "
  ++ stream_float (similarity c) ++ ")".

(** What the output holds for one numbered chunk. *)
Definition chunk_block (numbered : nat * ContextChunk) : string :=
  LF ++ "[" ++ source_line (fst numbered) (snd numbered) ++ "]" ++ LF
  ++ content (snd numbered) ++ LF.

(** The chunks in the order of the input, numbered from 1. *)
Definition numbered_from_1 (chunks : list ContextChunk)
    : list (nat * ContextChunk) :=
  combine (seq 1 (List.length chunks)) chunks.

Definition join (parts : list string) : string :=
  fold_right String.append "" parts.

(** *** The connection *)

(** [stripped] is [full] without its trailing slash, when it has one. *)
Definition without_trailing_slash (full stripped : string) : Prop :=
  full = stripped ++ "/"
  \/ (stripped = full /\ forall s, full <> s ++ "/").

(** The handle [init_http_client] stores for a configuration. *)
Definition built_client (W : World) (config : RAGConfig) : Client :=
  match connection_target (aurapai_host config) (aurapai_port config) with
  | (use_https, host, port) =>
      set_write_timeout (Z.quot (timeout_ms config) 1000)
        (Z.rem (timeout_ms config) 1000 * 1000)%Z
        (set_read_timeout (Z.quot (timeout_ms config) 1000)
           (Z.rem (timeout_ms config) 1000 * 1000)%Z
           (if use_https && openssl_support W then
              set_ca_cert_path "/etc/ssl/certs"
                (enable_server_certificate_verification true
                   (new_Client true host port))
            else new_Client false host port))
  end.

(** The events of a run of [init_http_client]. *)
Definition init_trace : list event :=
  [EvLock; EvConfigRead; EvConfigRead; EvClientWrite; EvConfigRead;
   EvConfigRead; EvClientWrite; EvConfigRead; EvConfigRead; EvClientWrite;
   EvUnlock].

(** *** The dispatcher *)

Definition augment_endpoint : string := "/api/v1/llama/augment".

(** What [make_request] answers, as a function of the handle and of the
    collaborators. *)
Definition dispatch (W : World) (handle : option Client) (endpoint : string)
    (body : json) : option json :=
  match handle with
  | None => None
  | Some client =>
      match json_dump W body with
      | Raise _ => None
      | Ok text =>
          match http_Post W client endpoint text "application/json" with
          | None => None
          | Some (status, res_body) =>
              if (status =? 200)%Z then
                match json_parse W res_body with
                | Ok parsed => Some parsed
                | Raise _ => None
                end
              else None
          end
      end
  end.

(** The claim on [make_request] as the specification words it: a payload
    for every parsable answer with a status from 200 to 299, and no
    payload otherwise. *)
Definition dispatcher_claim (W : World) (endpoint : string) (body : json)
    (s : RAGMiddleware) : Prop :=
  forall client text,
    http_client_ s = Some client ->
    json_dump W body = Ok text ->
    outcome_of (make_request W endpoint body s)
    = Returned
        match http_Post W client endpoint text "application/json" with
        | None => None
        | Some (status, res_body) =>
            if ((200 <=? status) && (status <? 300))%Z then
              match json_parse W res_body with
              | Ok parsed => Some parsed
              | Raise _ => None
              end
            else None
        end.

(** *** The translation and the bundles *)

(** The request [augment_query] sends from the state [s]. *)
Definition request_of (s : RAGMiddleware) (query session_id : string)
    : result json :=
  build_request query session_id (max_results (config_ s))
    (similarity_threshold (config_ s)) (include_tools (config_ s)).

(** The dispatcher returns [payload] to [augment_query]. *)
Definition dispatcher_returns (W : World) (s : RAGMiddleware)
    (query session_id : string) (payload : json) : Prop :=
  exists request,
    request_of s query session_id = Ok request
    /\ outcome_of (make_request W augment_endpoint request s)
       = Returned (Some payload).

(** The dispatcher returns no payload to [augment_query]. *)
Definition dispatcher_fails (W : World) (s : RAGMiddleware)
    (query session_id : string) : Prop :=
  exists request,
    request_of s query session_id = Ok request
    /\ outcome_of (make_request W augment_endpoint request s) = Returned None.

(** The run of the [try] block of [parse_response] on [payload]. *)
Definition translation (payload : json)
    : list event * RAGResponse * outcome unit :=
  parse_fields payload (set_success true RAGResponse_decl).

Definition translation_faults (payload : json) (e : exception) : Prop :=
  outcome_of (translation payload) = Thrown e.

(** The fields collected when the translation ended or faulted. *)
Definition collected (payload : json) : RAGResponse :=
  state_of (translation payload).

(** The chunk [parse_chunk] reads from an element, or the fault it meets. *)
Definition chunk_of (chunk_json : json) : result ContextChunk :=
  result_bind (value get_string chunk_json "content" "") (fun c =>
  result_bind (value get_string chunk_json "source" "unknown") (fun s =>
  result_bind (value get_float chunk_json "similarity" (float_of_int 0))
    (fun sim => Ok {| content := c; source := s; similarity := sim |}))).

Definition push_chunks (cs : list ContextChunk) (r : RAGResponse)
    : RAGResponse :=
  fold_left (fun acc c => push_chunk c acc) cs r.

(** The measured latency. *)
Definition measured (ticks_per_ms start_time end_time : Z) : c_float :=
  float_of_int (Z.quot (end_time - start_time) ticks_per_ms).

(** The claim on the bundles of [augment_query] as the specification
    words it: a message exactly on failure, either a success or a failure
    with a message and no chunks, and no chunks once the translation has
    faulted ([faulted]). *)
Definition bundle_claim (faulted : bool) (r : RAGResponse) : Prop :=
  (error_message r <> "" <-> success r = Some false)
  /\ ((success r = Some true /\ error_message r = "")
      \/ (success r = Some false /\ error_message r <> "" /\ chunks r = []))
  /\ (faulted = true -> chunks r = []).

(** *** The lock and the reconfiguration *)

(** Whether every access of a trace happens while the mutex is held;
    [held] says whether it is at the start. *)
Fixpoint guarded (held : bool) (t : list event) : bool :=
  match t with
  | [] => true
  | EvLock :: t' => guarded true t'
  | EvUnlock :: t' => guarded false t'
  | _ :: t' => held && guarded held t'
  end.

(** The comparison of lines 176 to 178, on the raw configured values. *)
Definition identity_changed (old new : RAGConfig) : bool :=
  negb (aurapai_host new =? aurapai_host old)%string
  || negb (aurapai_port new =? aurapai_port old)%Z
  || negb (Bool.eqb (enabled new) (enabled old)).

(** A run that comes after the events [t]. *)
Definition after {S A} (t : list event) (r : list event * S * outcome A)
    : list event * S * outcome A :=
  ((t ++ trace_of r)%list, state_of r, outcome_of r).

(** The object once [config] is stored in it. *)
Definition with_config (config : RAGConfig) (held : bool) (s : RAGMiddleware)
    : RAGMiddleware :=
  {| config_ := config; http_client_ := http_client_ s;
     config_mutex_ := held |}.

(** An event that neither stores a handle nor uses the network. *)
Definition quiet (e : event) : Prop :=
  e <> EvClientWrite /\ is_network e = false.




(** *** Programs *)

(** A program that never waits for the mutex. *)
Definition lock_free {S A} (m : Prog S A) : Prop :=
  forall s, outcome_of (m s) <> Blocked.

(** A program that leaves the component [f] of the state as it is. *)
Definition preserves {S A X} (f : S -> X) (m : Prog S A) : Prop :=
  forall s, f (state_of (m s)) = f s.

End Vocabulary.

(* ================================================================== *)
(** ** An instance to run the model on *)

(** Floats that hold whole numbers, printed as the stream prints a whole
    number of fewer than seven digits. *)
#[local] Instance WholeFloats : FloatRepr := {|
  c_float := Z;
  c_double := Z;
  float_of_int := fun z => z;
  float_of_double := fun d => d;
  double_of_float := fun f => f;
  stream_float := string_of_Z
|}.

(** The double quote of a JSON text. *)
Definition DQ : string := String "034"%char EmptyString.

(** A service that gives the same answer to every request, next to a
    parser that knows the bodies of [table] and rejects every other one,
    and a serializer that always gives [dumped]. *)
Definition table_world (answer : http_result) (table : list (string * json))
    (dumped : string) : World :=
  {| http_Post := fun _ _ _ _ => answer;
     http_Get := fun _ _ => answer;
     json_parse := fun body =>
       match find (fun entry => (fst entry =? body)%string) table with
       | Some entry => Ok (snd entry)
       | None => Raise (parse_error 101 "syntax error")
       end;
     json_dump := fun _ => Ok dumped;
     openssl_support := true |}.

Definition sample_config (host : string) (on : bool) : RAGConfig :=
  {| aurapai_host := host; aurapai_port := 8001; max_results := 5;
     similarity_threshold := 0%Z; include_tools := false;
     timeout_ms := 5000; enabled := on |}.

(** [sample_config "localhost" true] with other soft fields. *)
Definition sample_config_soft : RAGConfig :=
  {| aurapai_host := "localhost"; aurapai_port := 8001; max_results := 9;
     similarity_threshold := 1%Z; include_tools := true;
     timeout_ms := 9000; enabled := true |}.

(** The body [{"chunks":[{"content":"a"},1]}], whose second chunk is not
    an object, and the value it parses to. *)
Definition body_bad_chunk : string :=
  "{" ++ DQ ++ "chunks" ++ DQ ++ ":[{" ++ DQ ++ "content" ++ DQ ++ ":"
  ++ DQ ++ "a" ++ DQ ++ "},1]}".

Definition payload_bad_chunk : json :=
  JObj [("chunks", JArr [JObj [("content", JStr "a")]; JInt 1])].

(** The body of the empty object. *)
Definition body_empty_object : string := "{}".

Definition sample_table : list (string * json) :=
  [(body_bad_chunk, payload_bad_chunk); (body_empty_object, JObj [])].

(** The service answers 200 with [body_bad_chunk]. *)
Definition world_bad_chunk : World :=
  table_world (Some (200%Z, body_bad_chunk)) sample_table "request".

(** The service answers 201 with the empty object. *)
Definition world_201 : World :=
  table_world (Some (201%Z, body_empty_object)) sample_table "request".

(** The middleware as its constructor leaves it for [sample_config]. *)
Definition sample_middleware (W : World) (host : string) (on : bool)
    : RAGMiddleware :=
  state_of (RAGMiddleware_new W (sample_config host on)).

Definition middleware_localhost : RAGMiddleware :=
  sample_middleware world_bad_chunk "localhost" true.

Definition middleware_disabled : RAGMiddleware :=
  sample_middleware world_bad_chunk "localhost" false.

(** The handle of [middleware_localhost]. *)
Definition client_localhost : Client :=
  set_write_timeout 5 0
    (set_read_timeout 5 0 (new_Client false "localhost" 8001)).

(** The fault of [value] on the number that stands for a chunk. *)
Definition fault_306 : exception :=
  type_error 306 "cannot use value() with number".

Definition chunk_a : ContextChunk :=
  {| content := "a"; source := "unknown"; similarity := 0%Z |}.

Definition chunk_b : ContextChunk :=
  {| content := "b"; source := "doc"; similarity := 1%Z |}.

(** The transcript of the specification's example: system, user A,
    assistant B, and then the user turn C. *)
Definition sample_transcript_head : list json :=
  [JObj [("content", JStr "S"); ("role", JStr "system")];
   JObj [("content", JStr "A"); ("role", JStr "user")];
   JObj [("content", JStr "B"); ("role", JStr "assistant")]].

Definition sample_user_turn : json :=
  JObj [("content", JStr "C"); ("role", JStr "user")].

Definition sample_day : tm :=
  {| tm_year := 126; tm_mon := 9; tm_mday := 30 |}.

(* ================================================================== *)
(** ** More vocabulary: the rest of the middleware *)

Section MoreVocabulary.
Context {F : FloatRepr}.

Definition health_endpoint : string := "/api/v1/llama/health".

(** The feature is on, there is a handle, and the service answers the
    health request with status 200 and a body that parses to an object
    whose member [ready] is the boolean true. *)
Definition reports_ready (W : World) (s : RAGMiddleware) : Prop :=
  enabled (config_ s) = true
  /\ exists client body parsed,
       http_client_ s = Some client
       /\ http_Get W client health_endpoint = Some (200%Z, body)
       /\ json_parse W body = Ok parsed
       /\ member "ready" parsed = Some (JBool true).

(** The number of requests a trace sends. *)
Definition network_calls (t : list event) : nat :=
  List.length (filter is_network t).

(** Whether every access to the handle, and every request, of a trace
    happens while the mutex is held; reads and writes of the
    configuration are not looked at. *)
Fixpoint connection_guarded (held : bool) (t : list event) : bool :=
  match t with
  | [] => true
  | EvLock :: t' => connection_guarded true t'
  | EvUnlock :: t' => connection_guarded false t'
  | EvConfigRead :: t' => connection_guarded held t'
  | EvConfigWrite :: t' => connection_guarded held t'
  | _ :: t' => held && connection_guarded held t'
  end.

(** The texts among the elements of a list, in their order. *)
Fixpoint texts_of (l : list json) : list string :=
  match l with
  | [] => []
  | JStr s :: l' => s :: texts_of l'
  | _ :: l' => texts_of l'
  end.

(** The elements a loop visits for a member that may be missing. *)
Definition elements (o : option json) : list json :=
  match o with
  | Some j => items j
  | None => []
  end.

Definition push_tools (ts : list string) (r : RAGResponse) : RAGResponse :=
  fold_left (fun acc t => push_tool t acc) ts r.

(** The fault of the first element that does not convert to a chunk. *)
Fixpoint first_chunk_fault (l : list json) : option exception :=
  match l with
  | [] => None
  | chunk_json :: l' =>
      match chunk_of chunk_json with
      | Raise e => Some e
      | Ok _ => first_chunk_fault l'
      end
  end.

(** The first conversion of an answer that faults, in the order in which
    [parse_response] makes them: the context, the latency, and then the
    elements of [chunks] one after the other.  The tools are only read
    after a test of their type, and so never fault. *)
Definition first_fault (payload : json) : option exception :=
  match value get_string payload "augmented_context" "" with
  | Raise e => Some e
  | Ok _ =>
      match value get_float payload "latency_ms" (float_of_int 0) with
      | Raise e => Some e
      | Ok _ => first_chunk_fault (elements (member "chunks" payload))
      end
  end.

(** The text of the date note. *)
Definition date_note (now : tm) : string :=
  "[System Note] Current date: " ++ put_time_Ymd now.

(** The separator between the injection and the original content. *)
Definition query_separator : string := LF ++ LF ++ "User Query: ".

(** Two turns that agree on every member but [content]. *)
Definition same_but_content (turn turn' : json) : Prop :=
  forall key, key <> "content" -> member key turn' = member key turn.

(** The keys of the request of [augment_query]. *)
Definition request_keys : list string :=
  ["query"; "max_results"; "similarity_threshold"; "include_tools";
   "session_id"].

(** The turn the loop of [inject_context_into_messages] stops at: the last
    one that passes the test of line 292. *)
Definition last_user_turn (messages : json) : option json :=
  match messages with
  | JArr turns => find is_user_turn (rev turns)
  | _ => None
  end.

End MoreVocabulary.

(** The service answers 200 with the body of a ready service. *)
Definition body_ready : string :=
  "{" ++ DQ ++ "ready" ++ DQ ++ ":true}".

Definition world_ready : World :=
  table_world (Some (200%Z, body_ready))
    [(body_ready, JObj [("ready", JBool true)])] "request".

(** The service does not answer. *)
Definition world_silent : World :=
  table_world None sample_table "request".

(** A payload with two chunks and two tools, one of them not a text. *)
Definition payload_two_chunks : json :=
  JObj [("augmented_context", JStr "ctx");
        ("chunks", JArr [JObj [("content", JStr "a")];
                         JObj [("content", JStr "b"); ("similarity", JInt 1);
                               ("source", JStr "doc")]]);
        ("latency_ms", JInt 3);
        ("suggested_tools", JArr [JStr "search"; JInt 7; JStr "calc"])].

(** The service answers 200 with a body that parses to
    [payload_two_chunks]. *)
Definition body_two_chunks : string :=
  "{" ++ DQ ++ "augmented_context" ++ DQ ++ ":" ++ DQ ++ "ctx" ++ DQ
  ++ "," ++ DQ ++ "chunks" ++ DQ ++ ":[{" ++ DQ ++ "content" ++ DQ ++ ":"
  ++ DQ ++ "a" ++ DQ ++ "},{" ++ DQ ++ "content" ++ DQ ++ ":" ++ DQ ++ "b"
  ++ DQ ++ "," ++ DQ ++ "similarity" ++ DQ ++ ":1," ++ DQ ++ "source" ++ DQ
  ++ ":" ++ DQ ++ "doc" ++ DQ ++ "}]," ++ DQ ++ "latency_ms" ++ DQ ++ ":3,"
  ++ DQ ++ "suggested_tools" ++ DQ ++ ":[" ++ DQ ++ "search" ++ DQ ++ ",7,"
  ++ DQ ++ "calc" ++ DQ ++ "]}".

Definition world_two_chunks : World :=
  table_world (Some (200%Z, body_two_chunks))
    [(body_two_chunks, payload_two_chunks)] "request".

(** A user turn whose content is a list of parts. *)
Definition sample_parts_turn : list (string * json) :=
  [("content", JArr [JObj [("text", JStr "hi"); ("type", JStr "text")]]);
   ("role", JStr "user")].

(** An object whose mutex is held. *)
Definition middleware_locked : RAGMiddleware :=
  set_mutex true middleware_localhost.

(** A transcript without a user turn. *)
Definition sample_transcript_head_no_user : list json :=
  [JObj [("content", JStr "S"); ("role", JStr "system")];
   JObj [("content", JStr "B"); ("role", JStr "assistant")]].

(* ================================================================== *)
(** ** Strings *)

Section StringFacts.

Lemma append_assoc (a b c : string) : (a ++ b) ++ c = a ++ (b ++ c).
Proof.
  induction a as [|x a IH]; simpl; [reflexivity | now rewrite IH].
Qed.

Lemma append_empty_r (a : string) : a ++ "" = a.
Proof.
  induction a as [|x a IH]; simpl; [reflexivity | now rewrite IH].
Qed.

Lemma length_append (a b : string) :
  String.length (a ++ b) = String.length a + String.length b.
Proof.
  induction a as [|x a IH]; simpl; [reflexivity | now rewrite IH].
Qed.

Lemma substring_all (s : string) : substring 0 (String.length s) s = s.
Proof.
  induction s as [|a s IH]; simpl; [reflexivity | now rewrite IH].
Qed.

Lemma find_at_0_prefix (p s : string) : find_at_0 p s = prefix p s.
Proof.
  unfold find_at_0. destruct s as [|b s]; cbn [index].
  - destruct p; reflexivity.
  - destruct (prefix p (String b s)); [reflexivity|].
    destruct (index 0 p s); reflexivity.
Qed.

Lemma prefix_append (p rest : string) : prefix p (p ++ rest) = true.
Proof.
  induction p as [|a p IH]; simpl.
  - destruct rest; reflexivity.
  - destruct (ascii_dec a a); [exact IH | congruence].
Qed.

Lemma prefix_split (p : string) :
  forall s, prefix p s = true -> exists rest, s = p ++ rest.
Proof.
  induction p as [|a p IH]; intros s H.
  - exists s. reflexivity.
  - destruct s as [|b s]; simpl in H; [discriminate|].
    destruct (ascii_dec a b) as [<-|]; [|discriminate].
    destruct (IH s H) as [rest ->]. exists rest. reflexivity.
Qed.

Lemma not_prefix (p s : string) :
  (forall rest, s <> p ++ rest) -> prefix p s = false.
Proof.
  intros H. destruct (prefix p s) eqn:E; [|reflexivity].
  destruct (prefix_split _ _ E) as [rest ->]. now destruct (H rest).
Qed.

Lemma substr_append (p rest : string) : substr (String.length p) (p ++ rest) = rest.
Proof.
  unfold substr. rewrite length_append.
  replace (String.length p + String.length rest - String.length p)
    with (String.length rest) by lia.
  induction p as [|a p IH]; simpl.
  - apply substring_all.
  - exact IH.
Qed.

Lemma back_append (s : string) (c : ascii) :
  back (s ++ String c "") = Some c.
Proof.
  unfold back. rewrite length_append. simpl String.length.
  replace (String.length s + 1 - 1) with (String.length s) by lia.
  induction s as [|a s IH]; simpl; [reflexivity | exact IH].
Qed.

Lemma pop_back_append (s : string) (c : ascii) :
  pop_back (s ++ String c "") = s.
Proof.
  unfold pop_back. rewrite length_append. simpl String.length.
  replace (String.length s + 1 - 1) with (String.length s) by lia.
  induction s as [|a s IH]; simpl; [reflexivity | now rewrite IH].
Qed.

Lemma last_char_split (s : string) :
  s <> "" -> exists s0 c, s = s0 ++ String c "".
Proof.
  induction s as [|a s IH]; intros H; [congruence|].
  destruct s as [|b s].
  - exists "", a. reflexivity.
  - destruct IH as (s0 & c & E); [discriminate|].
    exists (String a s0), c. simpl. now rewrite E.
Qed.

End StringFacts.

(* ================================================================== *)
(** ** The json accessors *)

Section JsonFacts.
Context {F : FloatRepr}.

Lemma contains_member (j : json) (key : string) :
  contains j key = true <-> exists v, member key j = Some v.
Proof.
  destruct j; simpl; try (split; [discriminate | intros [v H]; discriminate]).
  destruct (obj_find key m) as [v|]; split; try discriminate; eauto.
  intros [v H]; discriminate.
Qed.

Lemma contains_false_member (j : json) (key : string) :
  contains j key = false <-> member key j = None.
Proof.
  destruct j; simpl; try (split; reflexivity).
  destruct (obj_find key m); split; congruence.
Qed.

Lemma const_at_member (j : json) (key : string) (v : json) :
  member key j = Some v -> const_at j key = v.
Proof.
  destruct j; simpl; try discriminate. now intros ->.
Qed.

Lemma json_eq_str_true (j : json) (s : string) :
  json_eq_str j s = true <-> j = JStr s.
Proof.
  destruct j; simpl; try (split; [discriminate | intros H; discriminate]).
  rewrite String.eqb_eq. split; [now intros -> | now intros [= ->]].
Qed.

Lemma is_user_turn_role (turn : json) :
  is_user_turn turn = true <-> role_is "user" turn.
Proof.
  unfold is_user_turn, role_is. rewrite andb_true_iff, contains_member, json_eq_str_true.
  split.
  - intros [[v Hv] E]. rewrite (const_at_member _ _ _ Hv) in E. congruence.
  - intros H. split; [eauto|]. now apply const_at_member.
Qed.

Lemma is_user_turn_not_role (turn : json) :
  is_user_turn turn = false <-> ~ role_is "user" turn.
Proof.
  rewrite <- is_user_turn_role. destruct (is_user_turn turn); split; congruence.
Qed.

Lemma any_user_turn_exists (turns : list json) :
  any_user_turn turns = true <-> exists turn, In turn turns /\ role_is "user" turn.
Proof.
  induction turns as [|t turns IH]; simpl.
  - split; [discriminate | intros (x & [] & _)].
  - destruct (is_user_turn t) eqn:E.
    + split; [|reflexivity]. intros _. exists t. split; [now left|].
      now apply is_user_turn_role.
    + rewrite IH. split.
      * intros (x & Hin & Hr). exists x. split; [now right | exact Hr].
      * intros (x & [<- | Hin] & Hr).
        -- apply is_user_turn_role in Hr. congruence.
        -- eauto.
Qed.

Lemma obj_find_set_same (key : string) (v : json) (m : list (string * json)) :
  obj_find key (obj_set key v m) = Some v.
Proof.
  induction m as [|[k w] m IH]; simpl.
  - now rewrite String.eqb_refl.
  - destruct (k =? key)%string eqn:E; simpl.
    + now rewrite String.eqb_refl.
    + destruct (String.ltb key k); simpl.
      * now rewrite String.eqb_refl.
      * now rewrite E.
Qed.

Lemma obj_find_set_other (key key' : string) (v : json) (m : list (string * json)) :
  key' <> key -> obj_find key' (obj_set key v m) = obj_find key' m.
Proof.
  intros Hne. assert (N : (key =? key')%string = false).
  { apply String.eqb_neq. congruence. }
  induction m as [|[k w] m IH]; simpl.
  - now rewrite N.
  - destruct (k =? key)%string eqn:E; simpl.
    + rewrite N. apply String.eqb_eq in E. subst k. now rewrite N.
    + destruct (String.ltb key k); simpl.
      * now rewrite N.
      * now rewrite IH.
Qed.

Lemma value_text_content (turn : json) (c : string) :
  text_content turn = Some c -> value get_string turn "content" "" = Ok c.
Proof.
  destruct turn; simpl; try discriminate.
  destruct (obj_find "content" m) as [[]|]; simpl; congruence.
Qed.

End JsonFacts.

(* ================================================================== *)
(** ** The monad *)

Section MonadFacts.
Context {F : FloatRepr}.

Lemma lock_free_ret {S A} (a : A) : lock_free (ret a : Prog S A).
Proof. intros s. discriminate. Qed.

Lemma lock_free_lift {S A} (r : result A) : lock_free (lift r : Prog S A).
Proof. intros s. destruct r; discriminate. Qed.

Lemma lock_free_modify {S} (f : S -> S) : lock_free (modify f).
Proof. intros s. discriminate. Qed.

Lemma lock_free_bind {S A B} (m : Prog S A) (k : A -> Prog S B) :
  lock_free m -> (forall a, lock_free (k a)) -> lock_free (bind m k).
Proof.
  intros Hm Hk s. unfold bind. specialize (Hm s).
  destruct (m s) as [[t1 s1] [a|e|]]; cbn in *; try congruence.
  specialize (Hk a s1). destruct (k a s1) as [[t2 s2] o]. exact Hk.
Qed.

Lemma lock_free_for_each {S A} (l : list A) (body : A -> Prog S unit) :
  (forall a, lock_free (body a)) -> lock_free (for_each l body).
Proof.
  intros H. induction l as [|x l IH]; cbn [for_each].
  - apply lock_free_ret.
  - apply lock_free_bind; [apply H | intros _; exact IH].
Qed.

Lemma preserves_ret {S A X} (f : S -> X) (a : A) : preserves f (ret a : Prog S A).
Proof. intros s. reflexivity. Qed.

Lemma preserves_lift {S A X} (f : S -> X) (r : result A) :
  preserves f (lift r : Prog S A).
Proof. intros s. destruct r; reflexivity. Qed.

Lemma preserves_modify {S X} (f : S -> X) (g : S -> S) :
  (forall s, f (g s) = f s) -> preserves f (modify g).
Proof. intros H s. apply H. Qed.

Lemma preserves_bind {S A B X} (f : S -> X) (m : Prog S A) (k : A -> Prog S B) :
  preserves f m -> (forall a, preserves f (k a)) -> preserves f (bind m k).
Proof.
  intros Hm Hk s. unfold bind. specialize (Hm s).
  destruct (m s) as [[t1 s1] [a|e|]]; cbn in *; try exact Hm.
  specialize (Hk a s1). destruct (k a s1) as [[t2 s2] o]. cbn in *. congruence.
Qed.

Lemma preserves_for_each {S A X} (f : S -> X) (l : list A)
    (body : A -> Prog S unit) :
  (forall a, preserves f (body a)) -> preserves f (for_each l body).
Proof.
  intros H. induction l as [|x l IH]; cbn [for_each].
  - apply preserves_ret.
  - apply preserves_bind; [apply H | intros _; exact IH].
Qed.

Lemma trace_of_bind {S A B} (m : Prog S A) (k : A -> Prog S B) (s : S) :
  trace_of (bind m k s)
  = (trace_of (m s)
     ++ match outcome_of (m s) with
        | Returned a => trace_of (k a (state_of (m s)))
        | _ => []
        end)%list.
Proof.
  unfold bind, trace_of, outcome_of, state_of.
  destruct (m s) as [[t1 s1] [a|e|]]; cbn; try now rewrite app_nil_r.
  destruct (k a s1) as [[t2 s2] o]. reflexivity.
Qed.

End MonadFacts.

(* ================================================================== *)
(** ** format_rag_context *)

Section FormatFacts.
Context {F : FloatRepr}.

Lemma format_chunks_appends (todo : list ContextChunk) :
  forall i oss,
    format_chunks i todo oss
    = oss ++ join (map chunk_block (combine (seq (S i) (List.length todo)) todo)).
Proof.
  induction todo as [|c todo IH]; intros i oss.
  - simpl. now rewrite append_empty_r.
  - cbn [format_chunks List.length seq combine map join fold_right].
    rewrite IH. unfold chunk_block, source_line. cbn [fst snd].
    rewrite Nat.add_1_r, !append_assoc. reflexivity.
Qed.

Lemma join_app (l1 l2 : list string) : join (l1 ++ l2) = join l1 ++ join l2.
Proof.
  induction l1 as [|x l1 IH]; simpl; [reflexivity|].
  now rewrite IH, append_assoc.
Qed.

Lemma combine_seq_nth (l : list ContextChunk) :
  forall start i c,
    nth_error l i = Some c ->
    exists l1 l2,
      combine (seq start (List.length l)) l = (l1 ++ (start + i, c) :: l2)%list.
Proof.
  induction l as [|x l IH]; intros start i c H.
  - destruct i; discriminate.
  - destruct i as [|i]; simpl in H.
    + injection H as ->. exists [], (combine (seq (S start) (List.length l)) l).
      simpl. now rewrite Nat.add_0_r.
    + destruct (IH (S start) i c H) as (l1 & l2 & E).
      exists ((start, x) :: l1), l2. simpl. rewrite E.
      now rewrite Nat.add_succ_r.
Qed.

(** C10. [format_rag_context] of the empty chunk list is the empty
    string.  For a list that is not empty the output is the header line
    [[Retrieved Context]], then for each chunk, in the order of the input
    and numbered from 1, an empty line, the bracketed line
    [Source N: <source> (relevance: <similarity>)] and the content of the
    chunk on a line of its own, then an empty line and the footer line
    [[End Retrieved Context]].  So the source line and the content of the
    chunk at index [i] stand in the output, numbered [i + 1]. *)
Theorem format_rag_context_layout :
  format_rag_context [] = ""
  /\ (forall c rest,
        format_rag_context (c :: rest)
        = "[Retrieved Context]" ++ LF
          ++ join (map chunk_block (numbered_from_1 (c :: rest)))
          ++ LF ++ "[End Retrieved Context]" ++ LF)
  /\ (forall chunks i c,
        nth_error chunks i = Some c ->
        exists before after,
          format_rag_context chunks
          = before ++ (source_line (i + 1) c ++ "]" ++ LF ++ content c) ++ after).
Proof.
  assert (L : forall c rest,
        format_rag_context (c :: rest)
        = "[Retrieved Context]" ++ LF
          ++ join (map chunk_block (numbered_from_1 (c :: rest)))
          ++ LF ++ "[End Retrieved Context]" ++ LF).
  { intros c rest. unfold format_rag_context.
    rewrite format_chunks_appends. unfold numbered_from_1.
    rewrite !append_assoc. reflexivity. }
  split; [reflexivity | split; [exact L|]].
  intros chunks i c H.
  destruct chunks as [|c0 rest]; [destruct i; discriminate|].
  rewrite L. unfold numbered_from_1.
  destruct (combine_seq_nth (c0 :: rest) 1 i c H) as (l1 & l2 & E).
  rewrite E, map_app, join_app. cbn [map join fold_right].
  exists ("[Retrieved Context]" ++ LF ++ join (map chunk_block l1) ++ LF ++ "["),
    (LF ++ join (map chunk_block l2) ++ LF ++ "[End Retrieved Context]" ++ LF).
  unfold chunk_block; cbn [fst snd].
  replace (1 + i) with (i + 1) by lia.
  rewrite !append_assoc. reflexivity.
Qed.

End FormatFacts.

(* ================================================================== *)
(** ** should_use_rag *)

Section PolicyFacts.
Context {F : FloatRepr}.

(** C9, amended.  When [params] carries a boolean [rag_enabled],
    [should_use_rag] returns that value, whatever the transcript.  When
    [params] has no member [rag_enabled], it returns false on a transcript
    that is not a sequence or is empty, and otherwise true exactly when
    some turn has the role [user].  In both cases it returns without a
    fault.  A member [rag_enabled] that is not a boolean is outside this
    statement: on it the conversion to [bool] faults. *)
Theorem should_use_rag_policy (messages params : json) :
  (forall b, member "rag_enabled" params = Some (JBool b) ->
     should_use_rag messages params = Ok b)
  /\ (member "rag_enabled" params = None ->
        (is_array messages = false -> should_use_rag messages params = Ok false)
        /\ (messages = JArr [] -> should_use_rag messages params = Ok false)
        /\ (exists b, should_use_rag messages params = Ok b
              /\ (b = true <-> transcript_has_user messages))).
Proof.
  unfold should_use_rag. split.
  - intros b H.
    assert (C : contains params "rag_enabled" = true)
      by (apply contains_member; eauto).
    rewrite C, (const_at_member _ _ _ H). reflexivity.
  - intros H. apply contains_false_member in H. rewrite H.
    split; [now intros -> | split; [now intros -> |]].
    destruct messages as [| | | | | |turns|]; simpl;
      try (exists false; split; [reflexivity|]; split; [discriminate|];
           intros (ts & t & E & _); discriminate).
    destruct turns as [|t turns].
    + exists false. split; [reflexivity|]. split; [discriminate|].
      intros (ts & x & E & Hin & _). injection E as <-. destruct Hin.
    + cbn [negb orb]. eexists. split; [reflexivity|].
      rewrite any_user_turn_exists. split.
      * intros (x & Hin & Hr). exists (t :: turns), x. auto.
      * intros (ts & x & E & Hin & Hr). injection E as <-. eauto.
Qed.

End PolicyFacts.

(* ================================================================== *)
(** ** inject_context_into_messages *)

Section InjectFacts.
Context {F : FloatRepr}.

Lemma range_forallb (P : Z -> bool) (lo n : Z) :
  forallb (fun k => P (lo + Z.of_nat k)%Z) (seq 0 (Z.to_nat n)) = true ->
  forall z, (lo <= z < lo + n)%Z -> P z = true.
Proof.
  intros H z Hz. rewrite forallb_forall in H.
  replace z with (lo + Z.of_nat (Z.to_nat (z - lo)))%Z by lia.
  apply H, in_seq. lia.
Qed.

Lemma year_digits4 (y : Z) :
  (1000 <= y <= 9999)%Z -> digits4 (string_of_Z y) = true.
Proof.
  intros H. apply (range_forallb (fun z => digits4 (string_of_Z z)) 1000%Z 9000%Z).
  - vm_compute. reflexivity.
  - lia.
Qed.

Lemma two_digits_digits2 (z : Z) :
  (0 <= z <= 99)%Z -> digits2 (two_digits z) = true.
Proof.
  intros H. apply (range_forallb (fun z => digits2 (two_digits z)) 0%Z 100%Z).
  - vm_compute. reflexivity.
  - lia.
Qed.

Lemma iso_date_parts (y m d : string) :
  digits4 y = true -> digits2 m = true -> digits2 d = true ->
  is_iso_date (y ++ "-" ++ m ++ "-" ++ d) = true.
Proof.
  destruct y as [|y1 [|y2 [|y3 [|y4 [|]]]]]; try discriminate.
  destruct m as [|m1 [|m2 [|]]]; try discriminate.
  destruct d as [|d1 [|d2 [|]]]; try discriminate.
  intros Hy Hm Hd. cbn [append is_iso_date].
  rewrite Hy, Hm, Hd. reflexivity.
Qed.

Lemma put_time_Ymd_iso (t : tm) :
  calendar_date t -> is_iso_date (put_time_Ymd t) = true.
Proof.
  intros (Hy & Hm & Hd). unfold put_time_Ymd.
  apply iso_date_parts.
  - now apply year_digits4.
  - apply two_digits_digits2. lia.
  - apply two_digits_digits2. lia.
Qed.

Lemma year_decimal_value (y : Z) :
  (1000 <= y <= 9999)%Z -> decimal_value (string_of_Z y) = y.
Proof.
  intros H. apply Z.eqb_eq.
  apply (range_forallb (fun z => (decimal_value (string_of_Z z) =? z)%Z)
           1000%Z 9000%Z).
  - vm_compute. reflexivity.
  - lia.
Qed.

Lemma two_digits_decimal_value (z : Z) :
  (0 <= z <= 99)%Z -> decimal_value (two_digits z) = z.
Proof.
  intros H. apply Z.eqb_eq.
  apply (range_forallb (fun z => (decimal_value (two_digits z) =? z)%Z)
           0%Z 100%Z).
  - vm_compute. reflexivity.
  - lia.
Qed.

Lemma put_time_Ymd_date_text (t : tm) :
  calendar_date t ->
  date_text (tm_year t + 1900) (tm_mon t + 1) (tm_mday t) (put_time_Ymd t).
Proof.
  intros (Hy & Hm & Hd).
  exists (string_of_Z (tm_year t + 1900)), (two_digits (tm_mon t + 1)),
    (two_digits (tm_mday t)).
  split; [reflexivity|].
  split; [now apply year_digits4|].
  split; [apply two_digits_digits2; lia|].
  split; [apply two_digits_digits2; lia|].
  split; [now apply year_decimal_value|].
  split; apply two_digits_decimal_value; lia.
Qed.

Lemma inject_from_back_skips (injection : string) (later : list json) :
  (forall t, In t later -> is_user_turn t = false) ->
  forall rest,
    inject_from_back injection (later ++ rest)
    = result_bind (inject_from_back injection rest)
        (fun rest' => Ok (later ++ rest')%list).
Proof.
  induction later as [|t later IH]; intros H rest.
  - simpl. destruct (inject_from_back injection rest); reflexivity.
  - cbn [app inject_from_back]. rewrite (H t (or_introl eq_refl)).
    rewrite IH by (intros x Hx; apply H; now right).
    destruct (inject_from_back injection rest); reflexivity.
Qed.

Lemma inject_from_back_no_user (injection : string) (l : list json) :
  (forall t, In t l -> is_user_turn t = false) ->
  inject_from_back injection l = Ok l.
Proof.
  intros H. rewrite <- (app_nil_r l) at 1.
  rewrite inject_from_back_skips by exact H. simpl. now rewrite app_nil_r.
Qed.

(** C8, amended.  [inject_context_into_messages] injects the given
    context, or, when that is empty, the note [[System Note] Current date: ]
    followed by the date of the local time in the form YYYY-MM-DD: the
    four digits of the year, the two digits of the month counted from 1,
    and the two digits of the day of the month.  A transcript that is not
    a sequence, or in which no turn has the role [user], is returned
    unchanged.  Otherwise, when the content of the last turn with the
    role [user] (the first one met from the back) is text, or is missing
    and so counts as the empty text, that turn gets the content:
    injection, two line feeds, [User Query: ], original content; its
    other members and every other turn are as given. *)
Theorem inject_context_last_user_turn (now : tm) (messages : json)
    (rag_context : string) :
  let injection := injection_of now rag_context in
  let result := inject_context_into_messages now messages rag_context in
  (rag_context = "" ->
     injection = "[System Note] Current date: " ++ put_time_Ymd now)
  /\ (rag_context <> "" -> injection = rag_context)
  /\ (calendar_date now ->
      date_text (tm_year now + 1900) (tm_mon now + 1) (tm_mday now)
        (put_time_Ymd now))
  /\ (is_array messages = false -> result = Ok messages)
  /\ (forall turns,
        messages = JArr turns ->
        (forall t, In t turns -> ~ role_is "user" t) ->
        result = Ok messages)
  /\ (forall before turn after original,
        messages = JArr (before ++ turn :: after) ->
        role_is "user" turn ->
        (forall t, In t after -> ~ role_is "user" t) ->
        text_content turn = Some original ->
        exists turn',
          result = Ok (JArr (before ++ turn' :: after))
          /\ text_content turn'
             = Some (injection ++ LF ++ LF ++ "User Query: " ++ original)
          /\ forall key, key <> "content" -> member key turn' = member key turn).
Proof.
  intros injection result. subst result.
  split; [|split; [|split; [|split; [|split]]]].
  - intros ->. reflexivity.
  - intros H. subst injection. unfold injection_of.
    destruct rag_context; [congruence | reflexivity].
  - apply put_time_Ymd_date_text.
  - destruct messages; try reflexivity. discriminate.
  - intros turns -> H. unfold inject_context_into_messages.
    fold injection.
    rewrite inject_from_back_no_user.
    + simpl. now rewrite rev_involutive.
    + intros t Ht. apply is_user_turn_not_role, H. now apply in_rev.
  - intros before turn after original -> Hrole Hafter Htext.
    unfold inject_context_into_messages. fold injection.
    rewrite rev_app_distr. cbn [rev]. rewrite <- app_assoc. cbn [app].
    rewrite inject_from_back_skips
      by (intros t Ht; apply is_user_turn_not_role, Hafter; now apply in_rev).
    cbn [inject_from_back].
    rewrite (proj2 (is_user_turn_role turn) Hrole).
    rewrite (value_text_content _ _ Htext).
    destruct turn as [| | | | | | |m]; try discriminate.
    cbn [result_bind assign_at].
    set (text := (injection ++ LF ++ LF ++ "User Query: ") ++ original).
    exists (JObj (obj_set "content" (JStr text) m)).
    split; [|split].
    + rewrite rev_app_distr. cbn [rev].
      rewrite !rev_involutive, <- !app_assoc. reflexivity.
    + cbn [text_content]. rewrite obj_find_set_same. subst text.
      now rewrite !append_assoc.
    + intros key Hkey. cbn [member]. now apply obj_find_set_other.
Qed.

(** Outside the transcripts of the specification: when the content of the
    last user turn is there and is not text, the call faults. *)
Remark inject_context_content_not_text (now : tm) (before after : list json)
    (members : list (string * json)) (v : json) (rag_context : string) :
  obj_find "role" members = Some (JStr "user") ->
  obj_find "content" members = Some v ->
  is_string v = false ->
  (forall t, In t after -> ~ role_is "user" t) ->
  inject_context_into_messages now (JArr (before ++ JObj members :: after))
    rag_context
  = Raise (type_error 302 ("type must be string, but is " ++ type_name v)).
Proof.
  intros Hrole Hcontent Hv Hafter. unfold inject_context_into_messages.
  rewrite rev_app_distr. cbn [rev]. rewrite <- app_assoc. cbn [app].
  rewrite inject_from_back_skips
    by (intros t Ht; apply is_user_turn_not_role, Hafter; now apply in_rev).
  cbn [inject_from_back].
  rewrite (proj2 (is_user_turn_role (JObj members)) Hrole).
  unfold value. rewrite Hcontent. destruct v; try discriminate; reflexivity.
Qed.

End InjectFacts.

(* ================================================================== *)
(** ** init_http_client *)

Section ConnectorFacts.
Context {F : FloatRepr}.
Variable W : World.

Lemma strip_slash_spec (host : string) :
  without_trailing_slash host
    (if negb (string_empty host)
        && match back host with
           | Some c => Ascii.eqb c "/"%char
           | None => false
           end
     then pop_back host else host).
Proof.
  destruct host as [|a host]; simpl negb; cbn [andb].
  - right. split; [reflexivity|]. intros [|x s]; discriminate.
  - destruct (last_char_split (String a host)) as (s0 & c & E); [discriminate|].
    rewrite E, back_append, pop_back_append.
    destruct (Ascii.eqb c "/"%char) eqn:Ec.
    + apply Ascii.eqb_eq in Ec. subst c. now left.
    + right. split; [reflexivity|]. intros s Hs.
      assert (B : back (s0 ++ String c "") = back (s ++ "/")) by now rewrite Hs.
      rewrite !back_append in B. injection B as ->.
      now rewrite Ascii.eqb_refl in Ec.
Qed.

Lemma connection_target_https (rest : string) (port : Z) :
  exists host,
    connection_target ("https://" ++ rest) port = (true, host, 443%Z)
    /\ without_trailing_slash rest host.
Proof.
  unfold connection_target.
  rewrite find_at_0_prefix, prefix_append.
  change 8 with (String.length "https://"). rewrite substr_append.
  eexists. split; [reflexivity | apply strip_slash_spec].
Qed.

Lemma connection_target_http (rest : string) (port : Z) :
  exists host,
    connection_target ("http://" ++ rest) port = (false, host, 80%Z)
    /\ without_trailing_slash rest host.
Proof.
  unfold connection_target.
  rewrite !find_at_0_prefix, prefix_append.
  replace (prefix "https://" ("http://" ++ rest)) with false
    by (simpl; destruct rest; reflexivity).
  change 7 with (String.length "http://"). rewrite substr_append.
  eexists. split; [reflexivity | apply strip_slash_spec].
Qed.

Lemma connection_target_bare (config_host : string) (port : Z) :
  (forall rest, config_host <> "https://" ++ rest) ->
  (forall rest, config_host <> "http://" ++ rest) ->
  exists host,
    connection_target config_host port = (false, host, port)
    /\ without_trailing_slash config_host host.
Proof.
  intros H1 H2. unfold connection_target.
  rewrite !find_at_0_prefix, (not_prefix _ _ H1), (not_prefix _ _ H2).
  eexists. split; [reflexivity | apply strip_slash_spec].
Qed.

Lemma built_client_target (config : RAGConfig) (use_https : bool)
    (host : string) (port : Z) :
  connection_target (aurapai_host config) (aurapai_port config)
  = (use_https, host, port) ->
  cl_host (built_client W config) = host
  /\ cl_port (built_client W config) = port.
Proof.
  unfold built_client. intros ->.
  destruct (use_https && openssl_support W); split; reflexivity.
Qed.

Lemma init_http_client_run (s : RAGMiddleware) :
  config_mutex_ s = false ->
  init_http_client W s
  = (init_trace,
     {| config_ := config_ s;
        http_client_ := Some (built_client W (config_ s));
        config_mutex_ := false |},
     Returned tt).
Proof.
  destruct s as [cfg handle held]. simpl. intros ->.
  unfold init_http_client, lock_guard, built_client, bind, finally, lock,
    unlock, read_config, write_client, update_client, set_mutex. cbn.
  destruct (connection_target (aurapai_host cfg) (aurapai_port cfg))
    as [[use_https host] port].
  destruct use_https, (openssl_support W); reflexivity.
Qed.

(** C6. From a state in which the mutex is free, [init_http_client]
    returns and stores a handle.  For a host [https://rest] the handle's
    host is [rest] without a trailing slash and its port is 443; for a host
    [http://rest] it is [rest] without a trailing slash and port 80; in both
    cases whatever the configured port.  For a host without such a prefix
    it is the configured host without a trailing slash and the configured
    port.  (One trailing slash is removed.) *)
Theorem init_http_client_target (s : RAGMiddleware) :
  config_mutex_ s = false ->
  exists t c,
    init_http_client W s
    = (t, {| config_ := config_ s; http_client_ := Some c;
             config_mutex_ := false |}, Returned tt)
    /\ (forall rest,
          aurapai_host (config_ s) = "https://" ++ rest ->
          without_trailing_slash rest (cl_host c) /\ cl_port c = 443%Z)
    /\ (forall rest,
          aurapai_host (config_ s) = "http://" ++ rest ->
          without_trailing_slash rest (cl_host c) /\ cl_port c = 80%Z)
    /\ ((forall rest, aurapai_host (config_ s) <> "https://" ++ rest) ->
        (forall rest, aurapai_host (config_ s) <> "http://" ++ rest) ->
        without_trailing_slash (aurapai_host (config_ s)) (cl_host c)
        /\ cl_port c = aurapai_port (config_ s)).
Proof.
  intros Hfree. exists init_trace, (built_client W (config_ s)).
  split; [now apply init_http_client_run|].
  split; [|split].
  - intros rest E.
    destruct (connection_target_https rest (aurapai_port (config_ s)))
      as (host & Ht & Hs).
    rewrite <- E in Ht. destruct (built_client_target _ _ _ _ Ht) as [-> ->].
    now split.
  - intros rest E.
    destruct (connection_target_http rest (aurapai_port (config_ s)))
      as (host & Ht & Hs).
    rewrite <- E in Ht. destruct (built_client_target _ _ _ _ Ht) as [-> ->].
    now split.
  - intros H1 H2.
    destruct (connection_target_bare _ (aurapai_port (config_ s)) H1 H2)
      as (host & Ht & Hs).
    destruct (built_client_target _ _ _ _ Ht) as [-> ->]. now split.
Qed.

End ConnectorFacts.

(* ================================================================== *)
(** ** make_request *)

Section DispatcherFacts.
Context {F : FloatRepr}.
Variable W : World.

Lemma make_request_run (endpoint : string) (body : json) (s : RAGMiddleware) :
  config_mutex_ s = false ->
  make_request W endpoint body s
  = (trace_of (make_request W endpoint body s), s,
     Returned (dispatch W (http_client_ s) endpoint body)).
Proof.
  destruct s as [cfg handle held]. simpl. intros ->.
  unfold make_request, lock_guard, dispatch, bind, finally, try_catch, lock,
    unlock, read_client, Post, lift, ret, throw, set_mutex, trace_of. cbn.
  destruct handle as [client|]; cbn; [|reflexivity].
  destruct (json_dump W body) as [text|e]; cbn; [|reflexivity].
  destruct (http_Post W client endpoint text "application/json")
    as [[status res_body]|]; cbn; [|reflexivity].
  destruct (status =? 200)%Z; cbn; [|reflexivity].
  destruct (json_parse W res_body); reflexivity.
Qed.

Lemma make_request_posts (endpoint : string) (body : json) (s : RAGMiddleware)
    (client : Client) (text : string) :
  config_mutex_ s = false ->
  http_client_ s = Some client ->
  json_dump W body = Ok text ->
  In (EvPost client endpoint text "application/json")
     (trace_of (make_request W endpoint body s)).
Proof.
  intros Hfree Hclient Hdump.
  destruct s as [cfg handle held]. cbn in Hfree, Hclient. subst.
  unfold make_request, lock_guard, bind, finally, try_catch, lock, unlock,
    read_client, Post, lift, ret, set_mutex, trace_of. cbn.
  rewrite Hdump. cbn.
  destruct (http_Post W client endpoint text "application/json")
    as [[status res_body]|]; cbn; [|auto].
  destruct (status =? 200)%Z; cbn; [|auto].
  destruct (json_parse W res_body); cbn; auto.
Qed.

(** C7, amended.  When [make_request] executes a POST (the mutex is
    free, there is a handle, the body serializes), it leaves the object as
    it was and returns no payload when the transport gives no response,
    when the status is not 200, or when the body does not parse; it
    returns the parsed payload when the status is 200 and the body
    parses. *)
Theorem make_request_outcomes (endpoint : string) (body : json)
    (s : RAGMiddleware) (client : Client) (text : string) :
  config_mutex_ s = false ->
  http_client_ s = Some client ->
  json_dump W body = Ok text ->
  let answer := http_Post W client endpoint text "application/json" in
  let returned := outcome_of (make_request W endpoint body s) in
  state_of (make_request W endpoint body s) = s
  /\ In (EvPost client endpoint text "application/json")
        (trace_of (make_request W endpoint body s))
  /\ (answer = None -> returned = Returned None)
  /\ (forall status res_body,
        answer = Some (status, res_body) -> status <> 200%Z ->
        returned = Returned None)
  /\ (forall res_body e,
        answer = Some (200%Z, res_body) -> json_parse W res_body = Raise e ->
        returned = Returned None)
  /\ (forall res_body parsed,
        answer = Some (200%Z, res_body) -> json_parse W res_body = Ok parsed ->
        returned = Returned (Some parsed)).
Proof.
  intros Hfree Hclient Hdump answer returned. subst returned.
  rewrite (make_request_run endpoint body s Hfree).
  unfold state_of, outcome_of. cbn [fst snd].
  split; [reflexivity|]. split.
  - now apply make_request_posts.
  - unfold dispatch. rewrite Hclient, Hdump. fold answer.
    repeat split.
    + now intros ->.
    + intros status res_body -> Hs.
      apply Z.eqb_neq in Hs. now rewrite Hs.
    + intros res_body e -> Hp. cbn. now rewrite Hp.
    + intros res_body parsed -> Hp. cbn. now rewrite Hp.
Qed.

End DispatcherFacts.

(* ================================================================== *)
(** ** parse_response *)

Section TranslatorFacts.
Context {F : FloatRepr}.

Lemma parse_chunk_lock_free (chunk_json : json) : lock_free (parse_chunk chunk_json).
Proof.
  unfold parse_chunk.
  repeat (apply lock_free_bind; [apply lock_free_lift | intros ?]).
  apply lock_free_modify.
Qed.

Lemma parse_tool_lock_free (tool : json) : lock_free (parse_tool tool).
Proof.
  unfold parse_tool. destruct (is_string tool); [|apply lock_free_ret].
  apply lock_free_bind; [apply lock_free_lift | intros ?; apply lock_free_modify].
Qed.

Lemma parse_fields_lock_free (payload : json) : lock_free (parse_fields payload).
Proof.
  unfold parse_fields.
  apply lock_free_bind; [apply lock_free_lift | intros ?].
  apply lock_free_bind; [apply lock_free_modify | intros ?].
  apply lock_free_bind; [apply lock_free_lift | intros ?].
  apply lock_free_bind; [apply lock_free_modify | intros ?].
  apply lock_free_bind; [|intros ?].
  - destruct (contains payload "chunks"); [|apply lock_free_ret].
    apply lock_free_for_each, parse_chunk_lock_free.
  - destruct (contains payload "suggested_tools"); [|apply lock_free_ret].
    apply lock_free_for_each, parse_tool_lock_free.
Qed.

Lemma parse_fields_preserves {X} (f : RAGResponse -> X) (payload : json) :
  (forall v r, f (set_augmented_context v r) = f r) ->
  (forall v r, f (set_latency_ms v r) = f r) ->
  (forall c r, f (push_chunk c r) = f r) ->
  (forall t r, f (push_tool t r) = f r) ->
  preserves f (parse_fields payload).
Proof.
  intros H1 H2 H3 H4. unfold parse_fields.
  apply preserves_bind; [apply preserves_lift | intros ?].
  apply preserves_bind; [apply preserves_modify, H1 | intros ?].
  apply preserves_bind; [apply preserves_lift | intros ?].
  apply preserves_bind; [apply preserves_modify, H2 | intros ?].
  apply preserves_bind; [|intros ?].
  - destruct (contains payload "chunks"); [|apply preserves_ret].
    apply preserves_for_each. intros chunk_json. unfold parse_chunk.
    repeat (apply preserves_bind; [apply preserves_lift | intros ?]).
    apply preserves_modify, H3.
  - destruct (contains payload "suggested_tools"); [|apply preserves_ret].
    apply preserves_for_each. intros tool. unfold parse_tool.
    destruct (is_string tool); [|apply preserves_ret].
    apply preserves_bind; [apply preserves_lift | intros ?].
    apply preserves_modify, H4.
Qed.

Lemma collected_error_message (payload : json) :
  error_message (collected payload) = "".
Proof.
  unfold collected, translation.
  rewrite (parse_fields_preserves error_message) by reflexivity. reflexivity.
Qed.

Lemma collected_success (payload : json) :
  success (collected payload) = Some true.
Proof.
  unfold collected, translation.
  rewrite (parse_fields_preserves success) by reflexivity. reflexivity.
Qed.

Lemma translation_ends (payload : json) :
  outcome_of (translation payload) = Returned tt
  \/ exists e, translation_faults payload e.
Proof.
  unfold translation_faults.
  pose proof (parse_fields_lock_free payload (set_success true RAGResponse_decl)) as H.
  fold (translation payload) in H.
  destruct (outcome_of (translation payload)) as [[]|e|]; eauto. congruence.
Qed.

Lemma parse_response_translated (payload : json) :
  outcome_of (translation payload) = Returned tt ->
  parse_response payload = collected payload.
Proof.
  unfold parse_response, collected, translation, bind, try_catch, modify. cbn.
  destruct (parse_fields payload (set_success true RAGResponse_decl))
    as [[t r] o]. cbn. intros ->. reflexivity.
Qed.

Lemma parse_response_faulted (payload : json) (e : exception) :
  translation_faults payload e ->
  parse_response payload
  = set_error_message ("Parse error: " ++ what e)
      (set_success false (collected payload)).
Proof.
  unfold translation_faults, parse_response, collected, translation, bind,
    try_catch, modify. cbn.
  destruct (parse_fields payload (set_success true RAGResponse_decl))
    as [[t r] o]. cbn. intros ->. reflexivity.
Qed.

Lemma parse_chunk_run (chunk_json : json) (r : RAGResponse) :
  parse_chunk chunk_json r
  = match chunk_of chunk_json with
    | Ok c => ([], push_chunk c r, Returned tt)
    | Raise e => ([], r, Thrown e)
    end.
Proof.
  unfold parse_chunk, chunk_of, bind, lift, modify, ret, throw, result_bind.
  destruct (value get_string chunk_json "content" ""); [|reflexivity].
  destruct (value get_string chunk_json "source" "unknown"); [|reflexivity].
  destruct (value get_float chunk_json "similarity" (float_of_int 0));
    reflexivity.
Qed.

Lemma chunks_push_chunks (cs : list ContextChunk) :
  forall r, chunks (push_chunks cs r) = (chunks r ++ cs)%list.
Proof.
  unfold push_chunks. induction cs as [|c cs IH]; intros r; cbn [fold_left].
  - now rewrite app_nil_r.
  - rewrite IH. cbn. now rewrite <- app_assoc.
Qed.

Lemma for_each_chunks_fault (good : list json) (cs : list ContextChunk) :
  Forall2 (fun j c => chunk_of j = Ok c) good cs ->
  forall bad e rest r,
    chunk_of bad = Raise e ->
    for_each (good ++ bad :: rest) parse_chunk r
    = ([], push_chunks cs r, Thrown e).
Proof.
  induction 1 as [|j c good cs Hj _ IH]; intros bad e rest r Hbad.
  - cbn [app for_each]. unfold bind. rewrite parse_chunk_run, Hbad. reflexivity.
  - cbn [app for_each]. unfold bind. rewrite parse_chunk_run, Hj.
    rewrite (IH bad e rest _ Hbad). reflexivity.
Qed.

(** When the fault comes from an element of [chunks], the chunks read from
    the elements before it stay in the bundle. *)
Lemma translation_keeps_earlier_chunks (payload : json) (context : string)
    (latency : c_float) (good : list json) (cs : list ContextChunk)
    (bad : json) (rest : list json) (e : exception) :
  value get_string payload "augmented_context" "" = Ok context ->
  value get_float payload "latency_ms" (float_of_int 0) = Ok latency ->
  member "chunks" payload = Some (JArr (good ++ bad :: rest)) ->
  Forall2 (fun j c => chunk_of j = Ok c) good cs ->
  chunk_of bad = Raise e ->
  translation_faults payload e /\ chunks (collected payload) = cs.
Proof.
  intros Hc Hl Hm Hgood Hbad.
  assert (C : contains payload "chunks" = true) by (apply contains_member; eauto).
  assert (T : translation payload
              = ([], push_chunks cs
                       (set_latency_ms latency
                          (set_augmented_context context
                             (set_success true RAGResponse_decl))),
                 Thrown e)).
  { unfold translation, parse_fields, bind, lift. rewrite Hc, Hl.
    cbn [ret modify]. rewrite C, (const_at_member _ _ _ Hm). cbn [items].
    rewrite (for_each_chunks_fault good cs Hgood bad e rest _ Hbad).
    reflexivity. }
  unfold translation_faults, collected. rewrite T.
  split; [reflexivity|]. unfold state_of. cbn [fst snd].
  now rewrite chunks_push_chunks.
Qed.

End TranslatorFacts.

(* ================================================================== *)
(** ** augment_query *)

Section OrchestratorFacts.
Context {F : FloatRepr}.
Variable W : World.

Lemma build_request_ok (query session_id : string) (n : Z) (threshold : c_float)
    (tools : bool) :
  exists request, build_request query session_id n threshold tools = Ok request.
Proof.
  unfold build_request. destruct (string_empty session_id); cbn; eauto.
Qed.


Lemma augment_query_run (ticks_per_ms start_time end_time : Z)
    (query session_id : string) (s : RAGMiddleware) (request : json) :
  config_mutex_ s = false ->
  enabled (config_ s) = true ->
  string_empty query = false ->
  request_of s query session_id = Ok request ->
  augment_query W ticks_per_ms start_time end_time query session_id s
  = (([EvConfigRead; EvConfigRead; EvConfigRead; EvConfigRead]
      ++ trace_of (make_request W augment_endpoint request s))%list,
     s,
     Returned
       (set_latency_ms (measured ticks_per_ms start_time end_time)
          match dispatch W (http_client_ s) augment_endpoint request with
          | Some payload => set_success true (parse_response payload)
          | None =>
              set_error_message "Failed to get response from Aurapai"
                (set_success false RAGResponse_decl)
          end)).
Proof.
  intros Hfree Hon Hquery Hrequest. unfold request_of in Hrequest.
  cbv beta iota zeta delta [augment_query bind try_catch read_config lift ret].
  rewrite Hon, Hquery. cbn [negb]. rewrite Hrequest.
  fold augment_endpoint.
  rewrite (make_request_run W augment_endpoint request s Hfree).
  destruct (dispatch W (http_client_ s) augment_endpoint request);
    cbn; rewrite ?app_nil_r; reflexivity.
Qed.

(** C1, as the code has it.  When the dispatcher returns a payload and
    the translation of that payload faults with [e], [augment_query]
    returns a bundle whose error message is [Parse error: ] followed by
    [e.what()], as the claim says, but whose success flag is true: line 123
    sets it after [parse_response] has cleared it. *)
Theorem augment_query_reports_fault_as_success (ticks_per_ms start_time end_time : Z)
    (query session_id : string) (s : RAGMiddleware) (payload : json)
    (e : exception) :
  config_mutex_ s = false ->
  enabled (config_ s) = true ->
  query <> "" ->
  dispatcher_returns W s query session_id payload ->
  translation_faults payload e ->
  exists r,
    outcome_of (augment_query W ticks_per_ms start_time end_time query session_id s)
    = Returned r
    /\ success r = Some true
    /\ error_message r = "Parse error: " ++ what e.
Proof.
  intros Hfree Hon Hquery (request & Hrequest & Hdispatch) Hfault.
  assert (Hq : string_empty query = false) by (destruct query; [now destruct Hquery | reflexivity]).
  rewrite (augment_query_run _ _ _ _ _ _ _ Hfree Hon Hq Hrequest).
  rewrite (make_request_run W _ _ _ Hfree) in Hdispatch.
  unfold outcome_of in *. cbn [snd] in *. injection Hdispatch as ->.
  eexists. split; [reflexivity|].
  rewrite (parse_response_faulted _ _ Hfault). split; reflexivity.
Qed.

(** C2, amended.  From a state in which the mutex is free,
    [augment_query] returns a bundle, and the kind of the bundle follows
    from the run.  When the feature is off, the query is empty or the
    dispatcher returns no payload, it is a failure: success is false, the
    message is not empty, and there are no chunks, no tools and no
    context.  When the dispatcher returns a payload whose translation
    ends, it is the translated answer: success is true, the message is
    empty, and chunks, tools and context are the ones translated from the
    payload.  When the translation of the payload faults with [e], the
    message is [Parse error: ] followed by [e.what()] and the chunks
    collected before the fault are kept: if the fault comes from an
    element of [chunks], the bundle holds the chunks of the elements
    before it, in their order.  One of these cases always applies. *)
Theorem augment_query_bundle (ticks_per_ms start_time end_time : Z)
    (query session_id : string) (s : RAGMiddleware) :
  config_mutex_ s = false ->
  exists r,
    outcome_of (augment_query W ticks_per_ms start_time end_time query session_id s)
    = Returned r
    /\ (enabled (config_ s) = false \/ query = ""
        \/ dispatcher_fails W s query session_id ->
        success r = Some false /\ error_message r <> ""
        /\ chunks r = [] /\ suggested_tools r = []
        /\ augmented_context r = "")
    /\ (enabled (config_ s) = true -> query <> "" ->
        forall payload,
          dispatcher_returns W s query session_id payload ->
          (outcome_of (translation payload) = Returned tt ->
           success r = Some true /\ error_message r = ""
           /\ chunks r = chunks (collected payload)
           /\ suggested_tools r = suggested_tools (collected payload)
           /\ augmented_context r = augmented_context (collected payload))
          /\ (forall e,
                translation_faults payload e ->
                error_message r = "Parse error: " ++ what e
                /\ chunks r = chunks (collected payload))
          /\ (forall context latency good cs bad rest e,
                value get_string payload "augmented_context" "" = Ok context ->
                value get_float payload "latency_ms" (float_of_int 0)
                = Ok latency ->
                member "chunks" payload = Some (JArr (good ++ bad :: rest)) ->
                Forall2 (fun j c => chunk_of j = Ok c) good cs ->
                chunk_of bad = Raise e ->
                error_message r = "Parse error: " ++ what e
                /\ chunks r = cs))
    /\ (enabled (config_ s) = false \/ query = ""
        \/ dispatcher_fails W s query session_id
        \/ exists payload,
             dispatcher_returns W s query session_id payload
             /\ (outcome_of (translation payload) = Returned tt
                 \/ exists e, translation_faults payload e)).
Proof.
  intros Hfree.
  destruct (enabled (config_ s)) eqn:Hon.
  2:{ eexists. split.
      - unfold augment_query, bind, read_config, outcome_of. cbn.
        rewrite Hon. reflexivity.
      - split; [|split].
        + intros _. cbn. repeat split. discriminate.
        + discriminate.
        + left. reflexivity. }
  destruct (string_empty query) eqn:Hq.
  { assert (Hempty : query = "") by (destruct query; [reflexivity | discriminate]).
    eexists. split.
    - unfold augment_query, bind, read_config, outcome_of. cbn.
      rewrite Hon, Hq. reflexivity.
    - split; [|split].
      + intros _. cbn. repeat split. discriminate.
      + intros _ Hquery. now destruct Hquery.
      + right. left. exact Hempty. }
  assert (Hquery : query <> "") by (intros ->; discriminate Hq).
  destruct (build_request_ok query session_id (max_results (config_ s))
              (similarity_threshold (config_ s)) (include_tools (config_ s)))
    as [request Hrequest].
  assert (Hmake : forall request',
            request_of s query session_id = Ok request' ->
            outcome_of (make_request W augment_endpoint request' s)
            = Returned (dispatch W (http_client_ s) augment_endpoint request)).
  { intros request' Hrequest'. unfold request_of in Hrequest'.
    rewrite Hrequest in Hrequest'. injection Hrequest' as <-.
    rewrite (make_request_run W _ _ _ Hfree). reflexivity. }
  rewrite (augment_query_run _ _ _ _ _ _ _ Hfree Hon Hq Hrequest).
  eexists. split; [reflexivity|].
  destruct (dispatch W (http_client_ s) augment_endpoint request)
    as [payload|] eqn:Hd.
  - assert (Hret : dispatcher_returns W s query session_id payload).
    { exists request. split; [exact Hrequest|]. now apply Hmake. }
    split; [|split].
    + intros [H | [H | (request' & Hrequest' & Hout)]].
      * discriminate H.
      * now destruct Hquery.
      * rewrite (Hmake _ Hrequest') in Hout. discriminate Hout.
    + intros _ _ payload' (request' & Hrequest' & Hout).
      rewrite (Hmake _ Hrequest') in Hout. injection Hout as <-.
      split; [|split].
      * intros Hok. rewrite (parse_response_translated _ Hok). cbn.
        repeat split; auto. apply collected_error_message.
      * intros e He. rewrite (parse_response_faulted _ _ He). cbn.
        split; reflexivity.
      * intros context latency good cs bad rest e Hc Hl Hm Hgood Hbad.
        destruct (translation_keeps_earlier_chunks payload context latency
                    good cs bad rest e Hc Hl Hm Hgood Hbad) as [He Hcs].
        rewrite (parse_response_faulted _ _ He). cbn.
        split; [reflexivity | exact Hcs].
    + right. right. right. exists payload.
      split; [exact Hret | apply translation_ends].
  - split; [|split].
    + intros _. cbn. repeat split. discriminate.
    + intros _ _ payload' (request' & Hrequest' & Hout).
      rewrite (Hmake _ Hrequest') in Hout. discriminate Hout.
    + right. right. left. exists request.
      split; [exact Hrequest | now apply Hmake].
Qed.

(** C3, as the code has it.  When the feature is disabled, or the query
    is empty, [augment_query] only reads the configuration (no network
    event), leaves the object as it was, and returns a failure with the
    message [RAG disabled], respectively [Empty query], as the claim says;
    but the latency of that bundle is never assigned: both returns come
    before the first reading of the clock. *)
Theorem augment_query_early_return (ticks_per_ms start_time end_time : Z)
    (query session_id : string) (s : RAGMiddleware) :
  enabled (config_ s) = false \/ query = "" ->
  exists r,
    augment_query W ticks_per_ms start_time end_time query session_id s
    = ([EvConfigRead], s, Returned r)
    /\ success r = Some false
    /\ error_message r
       = (if enabled (config_ s) then "Empty query" else "RAG disabled")
    /\ latency_ms r = None.
Proof.
  intros H. unfold augment_query, bind, read_config. cbn.
  destruct (enabled (config_ s)); cbn.
  - destruct H as [H | ->]; [discriminate|]. cbn.
    eexists. split; [reflexivity|]. repeat split.
  - eexists. split; [reflexivity|]. repeat split.
Qed.

(** Past the two early returns the latency is the measured one. *)
Lemma augment_query_latency_measured (ticks_per_ms start_time end_time : Z)
    (query session_id : string) (s : RAGMiddleware) :
  config_mutex_ s = false ->
  enabled (config_ s) = true ->
  query <> "" ->
  exists r,
    outcome_of (augment_query W ticks_per_ms start_time end_time query session_id s)
    = Returned r
    /\ latency_ms r = Some (measured ticks_per_ms start_time end_time).
Proof.
  intros Hfree Hon Hquery.
  assert (Hq : string_empty query = false)
    by (destruct query; [now destruct Hquery | reflexivity]).
  destruct (build_request_ok query session_id (max_results (config_ s))
              (similarity_threshold (config_ s)) (include_tools (config_ s)))
    as [request Hrequest].
  rewrite (augment_query_run _ _ _ _ _ _ _ Hfree Hon Hq Hrequest).
  eexists. split; reflexivity.
Qed.

End OrchestratorFacts.

(* ================================================================== *)
(** ** The lock *)

Section LockFacts.
Context {F : FloatRepr}.
Variable W : World.

(** C5, as the code has it.  In every run of [augment_query], of
    [is_healthy] and of [get_config], the configuration is read while
    [config_mutex_] is not held: the first event of each trace is a read
    of [config_] outside the lock. *)
Theorem config_read_outside_lock (ticks_per_ms start_time end_time : Z)
    (query session_id : string) (s : RAGMiddleware) :
  guarded false
    (trace_of (augment_query W ticks_per_ms start_time end_time query session_id s))
  = false
  /\ guarded false (trace_of (is_healthy W s)) = false
  /\ guarded false (trace_of (get_config s)) = false.
Proof.
  split; [|split].
  - unfold augment_query. rewrite trace_of_bind. reflexivity.
  - unfold is_healthy. rewrite trace_of_bind. reflexivity.
  - reflexivity.
Qed.

(** The dispatcher and the connector do hold the lock for all they do. *)
Lemma make_request_guarded (endpoint : string) (body : json) (s : RAGMiddleware) :
  config_mutex_ s = false ->
  guarded false (trace_of (make_request W endpoint body s)) = true.
Proof.
  destruct s as [cfg handle held]. simpl. intros ->.
  unfold make_request, lock_guard, bind, finally, try_catch, lock,
    unlock, read_client, Post, lift, ret, throw, set_mutex, trace_of. cbn.
  destruct handle as [client|]; cbn; [|reflexivity].
  destruct (json_dump W body) as [text|e]; cbn; [|reflexivity].
  destruct (http_Post W client endpoint text "application/json")
    as [[status res_body]|]; cbn; [|reflexivity].
  destruct (status =? 200)%Z; cbn; [|reflexivity].
  destruct (json_parse W res_body); reflexivity.
Qed.

Lemma init_http_client_guarded (s : RAGMiddleware) :
  config_mutex_ s = false ->
  guarded false (trace_of (init_http_client W s)) = true.
Proof.
  intros H. rewrite (init_http_client_run W s H). reflexivity.
Qed.

End LockFacts.

(* ================================================================== *)
(** ** update_config *)

Section ReconfigureFacts.
Context {F : FloatRepr}.
Variable W : World.

(** The events of [need_reinit]. *)
Lemma need_reinit_run (config : RAGConfig) (s : RAGMiddleware) :
  exists t,
    need_reinit config s = (t, s, Returned (identity_changed (config_ s) config))
    /\ Forall (fun e => e = EvConfigRead) t.
Proof.
  unfold need_reinit, identity_changed, bind, read_config, ret. cbn.
  destruct (aurapai_host config =? aurapai_host (config_ s))%string; cbn.
  2:{ eexists. split; [reflexivity|]. repeat constructor. }
  destruct (aurapai_port config =? aurapai_port (config_ s))%Z; cbn.
  2:{ eexists. split; [reflexivity|]. repeat constructor. }
  eexists. split; [reflexivity|]. repeat constructor.
Qed.

Lemma update_config_run (config : RAGConfig) (s : RAGMiddleware) :
  config_mutex_ s = false ->
  exists t_compare,
    Forall (fun e => e = EvConfigRead) t_compare
    /\ update_config W config s
       = if identity_changed (config_ s) config then
           if enabled config then
             after (EvLock :: t_compare ++ [EvConfigWrite; EvConfigRead])
               (finally (init_http_client W) unlock (with_config config true s))
           else
             ((EvLock :: t_compare ++ [EvConfigWrite; EvConfigRead; EvUnlock])%list,
              with_config config false s, Returned tt)
         else
           ((EvLock :: t_compare ++ [EvConfigWrite; EvUnlock])%list,
            with_config config false s, Returned tt).
Proof.
  destruct s as [cfg handle held]. simpl. intros ->.
  destruct (need_reinit_run config
              {| config_ := cfg; http_client_ := handle; config_mutex_ := true |})
    as (t & Hrun & Ht).
  exists t. split; [exact Ht|].
  unfold update_config, lock_guard, lock, set_mutex.
  unfold bind at 1. cbn [config_mutex_ config_ http_client_].
  unfold finally at 1. unfold bind at 1. rewrite Hrun.
  cbn [config_].
  destruct (identity_changed cfg config).
  - unfold bind, write_config, read_config. cbn.
    destruct (enabled config).
    + unfold after, with_config, finally, trace_of, state_of, outcome_of. cbn.
      destruct (init_http_client W
                  {| config_ := config; http_client_ := handle;
                     config_mutex_ := true |}) as [[t2 s2] [[]|e|]];
        cbn; rewrite <- ?app_assoc; cbn; rewrite ?app_nil_r; try reflexivity.
    + cbn. rewrite <- app_assoc. reflexivity.
  - unfold bind, write_config, read_config. cbn.
    rewrite <- app_assoc. reflexivity.
Qed.

(** The rebuild never completes: [init_http_client] asks for the mutex
    that [update_config] holds. *)
Lemma update_config_rebuild_blocks (config : RAGConfig) (s : RAGMiddleware) :
  config_mutex_ s = false ->
  identity_changed (config_ s) config = true ->
  enabled config = true ->
  outcome_of (update_config W config s) = Blocked
  /\ config_mutex_ (state_of (update_config W config s)) = true.
Proof.
  intros Hfree Hchanged Hon.
  destruct (update_config_run config s Hfree) as (t & _ & ->).
  rewrite Hchanged, Hon. split; reflexivity.
Qed.

Lemma update_config_guarded (config : RAGConfig) (s : RAGMiddleware) :
  config_mutex_ s = false ->
  guarded false (trace_of (update_config W config s)) = true.
Proof.
  intros Hfree.
  destruct (update_config_run config s Hfree) as (t & Ht & ->).
  assert (G : forall tail, guarded true tail = true ->
                guarded true (t ++ tail) = true).
  { intros tail Htail. induction Ht as [|x t -> _ IH]; [exact Htail|].
    cbn. exact IH. }
  destruct (identity_changed (config_ s) config); [destruct (enabled config)|];
    cbn; rewrite ?app_nil_r; apply G; reflexivity.
Qed.


End ReconfigureFacts.

(* ================================================================== *)
(** ** Runs of the model *)

Lemma augment_query_reports_fault_as_success_witness :
  config_mutex_ middleware_localhost = false
  /\ enabled (config_ middleware_localhost) = true
  /\ "q" <> ""
  /\ dispatcher_returns world_bad_chunk middleware_localhost "q" ""
       payload_bad_chunk
  /\ translation_faults payload_bad_chunk fault_306
  /\ exists r,
       outcome_of (augment_query world_bad_chunk 1000000 0 7000000 "q" ""
                     middleware_localhost)
       = Returned r
       /\ success r = Some true
       /\ error_message r = "Parse error: " ++ what fault_306.
Proof.
  assert (H1 : config_mutex_ middleware_localhost = false) by reflexivity.
  assert (H2 : enabled (config_ middleware_localhost) = true) by reflexivity.
  assert (H3 : "q" <> "") by discriminate.
  assert (H4 : dispatcher_returns world_bad_chunk middleware_localhost "q" ""
                 payload_bad_chunk).
  { eexists. split; [reflexivity | vm_compute; reflexivity]. }
  assert (H5 : translation_faults payload_bad_chunk fault_306) by reflexivity.
  exact (conj H1 (conj H2 (conj H3 (conj H4 (conj H5
           (augment_query_reports_fault_as_success world_bad_chunk 1000000 0
              7000000 "q" "" middleware_localhost payload_bad_chunk fault_306
              H1 H2 H3 H4 H5)))))).
Defined.

(** The service answers 200 with a body whose second chunk is the number
    1: the bundle has success true next to a parse-error message, and it
    keeps the chunk read before the fault. *)
Lemma augment_query_bundle_counterexample :
  exists r,
    outcome_of (augment_query world_bad_chunk 1000000 0 7000000 "q" ""
                  middleware_localhost)
    = Returned r
    /\ translation_faults payload_bad_chunk fault_306
    /\ success r = Some true
    /\ error_message r = "Parse error: " ++ what fault_306
    /\ chunks r = [chunk_a]
    /\ ~ bundle_claim true r.
Proof.
  eexists. split; [vm_compute; reflexivity|].
  repeat (split; [reflexivity|]).
  intros (_ & _ & H). specialize (H eq_refl). discriminate H.
Qed.

Lemma augment_query_bundle_witness :
  config_mutex_ middleware_localhost = false
  /\ enabled (config_ middleware_localhost) = true
  /\ "q" <> ""
  /\ dispatcher_returns world_bad_chunk middleware_localhost "q" ""
       payload_bad_chunk
  /\ member "chunks" payload_bad_chunk
     = Some (JArr ([JObj [("content", JStr "a")]] ++ JInt 1 :: []))
  /\ chunk_of (JInt 1) = Raise fault_306
  /\ exists r,
       outcome_of (augment_query world_bad_chunk 1000000 0 7000000 "q" ""
                     middleware_localhost)
       = Returned r
       /\ error_message r = "Parse error: " ++ what fault_306
       /\ chunks r = [chunk_a].
Proof.
  assert (H3 : "q" <> "") by discriminate.
  assert (H4 : dispatcher_returns world_bad_chunk middleware_localhost "q" ""
                 payload_bad_chunk).
  { eexists. split; [reflexivity | vm_compute; reflexivity]. }
  assert (H5 : Forall2 (fun j c => chunk_of j = Ok c)
                 [JObj [("content", JStr "a")]] [chunk_a])
    by (repeat constructor).
  split; [reflexivity|]. split; [reflexivity|]. split; [exact H3|].
  split; [exact H4|]. split; [reflexivity|]. split; [reflexivity|].
  destruct (augment_query_bundle world_bad_chunk 1000000 0 7000000 "q" ""
              middleware_localhost eq_refl) as (r & Hout & _ & Hkind & _).
  exists r. split; [exact Hout|].
  exact (proj2 (proj2 (Hkind eq_refl H3 payload_bad_chunk H4))
           "" (float_of_int 0) [JObj [("content", JStr "a")]] [chunk_a]
           (JInt 1) [] fault_306 eq_refl eq_refl eq_refl H5 eq_refl).
Defined.

Lemma augment_query_early_return_witness :
  (enabled (config_ middleware_disabled) = false \/ "hello" = "")
  /\ exists r,
       augment_query world_bad_chunk 1000000 0 7000000 "hello" ""
         middleware_disabled
       = ([EvConfigRead], middleware_disabled, Returned r)
       /\ success r = Some false
       /\ error_message r = "RAG disabled"
       /\ latency_ms r = None.
Proof.
  exact (conj (or_introl eq_refl)
           (augment_query_early_return world_bad_chunk 1000000 0 7000000
              "hello" "" middleware_disabled (or_introl eq_refl))).
Defined.



Lemma init_http_client_target_witness :
  config_mutex_ (sample_middleware world_bad_chunk "https://svc.example/" false)
  = false
  /\ exists t c,
       init_http_client world_bad_chunk
         (sample_middleware world_bad_chunk "https://svc.example/" false)
       = (t, {| config_ := sample_config "https://svc.example/" false;
                http_client_ := Some c; config_mutex_ := false |}, Returned tt)
       /\ without_trailing_slash "svc.example/" (cl_host c)
       /\ cl_port c = 443%Z.
Proof.
  split; [reflexivity|].
  destruct (init_http_client_target world_bad_chunk
              (sample_middleware world_bad_chunk "https://svc.example/" false)
              eq_refl) as (t & c & Hrun & Hhttps & _).
  exists t, c. split; [exact Hrun | exact (Hhttps "svc.example/" eq_refl)].
Defined.

(** The service answers 201 with the empty object: the body parses, and
    no payload comes back. *)
Lemma make_request_counterexample :
  outcome_of (make_request world_201 augment_endpoint (JObj [])
                middleware_localhost)
  = Returned None
  /\ ~ dispatcher_claim world_201 augment_endpoint (JObj [])
         middleware_localhost.
Proof.
  split; [reflexivity|].
  intros H. specialize (H client_localhost "request" eq_refl eq_refl).
  vm_compute in H. discriminate H.
Qed.

Lemma make_request_outcomes_witness :
  config_mutex_ middleware_localhost = false
  /\ http_client_ middleware_localhost = Some client_localhost
  /\ json_dump world_bad_chunk (JObj []) = Ok "request"
  /\ http_Post world_bad_chunk client_localhost augment_endpoint "request"
       "application/json" = Some (200%Z, body_bad_chunk)
  /\ json_parse world_bad_chunk body_bad_chunk = Ok payload_bad_chunk
  /\ outcome_of (make_request world_bad_chunk augment_endpoint (JObj [])
                   middleware_localhost)
     = Returned (Some payload_bad_chunk)
  /\ outcome_of (make_request world_201 augment_endpoint (JObj [])
                   middleware_localhost)
     = Returned None.
Proof.
  do 5 (split; [reflexivity|]).
  split.
  - exact (proj2 (proj2 (proj2 (proj2 (proj2
             (make_request_outcomes world_bad_chunk augment_endpoint (JObj [])
                middleware_localhost client_localhost "request"
                eq_refl eq_refl eq_refl)))))
             body_bad_chunk payload_bad_chunk eq_refl eq_refl).
  - refine (proj1 (proj2 (proj2 (proj2
             (make_request_outcomes world_201 augment_endpoint (JObj [])
                middleware_localhost client_localhost "request"
                eq_refl eq_refl eq_refl))))
             201%Z body_empty_object eq_refl _).
    discriminate.
Defined.

(** The example of the specification: the last turn is rewritten, the
    user turn A is untouched. *)
Lemma inject_context_last_user_turn_witness :
  role_is "user" sample_user_turn
  /\ text_content sample_user_turn = Some "C"
  /\ calendar_date sample_day
  /\ put_time_Ymd sample_day = "2026-10-30"
  /\ date_text 2026 10 30 (put_time_Ymd sample_day)
  /\ exists turn',
       inject_context_into_messages sample_day
         (JArr (sample_transcript_head ++ [sample_user_turn])) "CTX"
       = Ok (JArr (sample_transcript_head ++ [turn']))
       /\ text_content turn' = Some ("CTX" ++ LF ++ LF ++ "User Query: " ++ "C")
       /\ forall key, key <> "content" ->
            member key turn' = member key sample_user_turn.
Proof.
  assert (D : calendar_date sample_day) by (unfold calendar_date; cbn; lia).
  split; [reflexivity|]. split; [reflexivity|]. split; [exact D|].
  split; [reflexivity|]. split.
  - exact (proj1 (proj2 (proj2
             (inject_context_last_user_turn sample_day (JArr []) ""))) D).
  - exact (proj2 (proj2 (proj2 (proj2 (proj2
             (inject_context_last_user_turn sample_day
                (JArr (sample_transcript_head ++ [sample_user_turn])) "CTX")))))
             sample_transcript_head sample_user_turn [] "C" eq_refl eq_refl
             (fun t (H : In t []) => match H with end) eq_refl).
Defined.

(** The content of the last user turn is a list of parts, as a client
    sends it for a message with several parts: the call faults, where the
    claim expects the transcript with that turn rewritten. *)
Lemma inject_context_counterexample :
  role_is "user" (JObj sample_parts_turn)
  /\ inject_context_into_messages sample_day
       (JArr (sample_transcript_head ++ JObj sample_parts_turn :: [])) "CTX"
     = Raise (type_error 302 "type must be string, but is array")
  /\ ~ injector_claim sample_day sample_transcript_head
         (JObj sample_parts_turn) [] "CTX".
Proof.
  split; [reflexivity|]. split; [reflexivity|].
  intros (turn' & original & H & _). discriminate H.
Qed.

Lemma should_use_rag_policy_witness :
  member "rag_enabled" (JObj [("rag_enabled", JBool false)]) = Some (JBool false)
  /\ should_use_rag (JArr [sample_user_turn]) (JObj [("rag_enabled", JBool false)])
     = Ok false
  /\ member "rag_enabled" (JObj []) = None
  /\ should_use_rag (JArr []) (JObj []) = Ok false.
Proof.
  exact (conj eq_refl
          (conj
            (proj1 (should_use_rag_policy (JArr [sample_user_turn])
                      (JObj [("rag_enabled", JBool false)])) false eq_refl)
          (conj eq_refl
            (proj1 (proj2 (proj2 (should_use_rag_policy (JArr []) (JObj []))
                             eq_refl)) eq_refl)))).
Defined.

(** [rag_enabled] is there and is the text [true]: the call faults, next
    to a transcript for which the claim expects an answer. *)
Lemma should_use_rag_counterexample :
  should_use_rag (JArr [sample_user_turn]) (JObj [("rag_enabled", JStr "true")])
  = Raise (type_error 302 "type must be boolean, but is string")
  /\ ~ policy_gate_claim (JArr [sample_user_turn])
         (JObj [("rag_enabled", JStr "true")]).
Proof.
  split; [reflexivity|]. intros (b & H & _). discriminate H.
Qed.

Lemma format_rag_context_layout_witness :
  nth_error [chunk_a; chunk_b] 1 = Some chunk_b
  /\ exists before after,
       format_rag_context [chunk_a; chunk_b]
       = before
         ++ ("Source 2: doc (relevance: 1)" ++ "]" ++ LF ++ "b") ++ after.
Proof.
  exact (conj eq_refl
           (proj2 (proj2 format_rag_context_layout)
              [chunk_a; chunk_b] 1 chunk_b eq_refl)).
Defined.

(* ================================================================== *)
(** ** More properties: requests *)

Section RequestFacts.
Context {F : FloatRepr}.
Variable W : World.

Lemma network_calls_app (t1 t2 : list event) :
  network_calls (t1 ++ t2) = network_calls t1 + network_calls t2.
Proof.
  unfold network_calls. now rewrite filter_app, length_app.
Qed.

Lemma value_ready_true (parsed : json) :
  value get_bool parsed "ready" false = Ok true
  <-> member "ready" parsed = Some (JBool true).
Proof.
  destruct parsed; cbn; try (split; discriminate).
  destruct (obj_find "ready" m) as [[]|]; cbn; split; congruence.
Qed.

(** X1. From a state in which the mutex is free, [is_healthy] returns a
    boolean, never a fault, and leaves the object as it was, the mutex
    free again.  It sends at most one request, and none when the feature
    is off or there is no handle.  The answer is true exactly when the
    feature is on, there is a handle, the service answers status 200, and
    the body parses to an object whose [ready] is the boolean true; every
    other case (no response, another status, a body that does not parse,
    a missing or non-boolean [ready]) is false. *)
Theorem is_healthy_verdict (s : RAGMiddleware) :
  config_mutex_ s = false ->
  exists b,
    outcome_of (is_healthy W s) = Returned b
    /\ state_of (is_healthy W s) = s
    /\ (b = true <-> reports_ready W s)
    /\ network_calls (trace_of (is_healthy W s)) <= 1
    /\ (enabled (config_ s) = false \/ http_client_ s = None ->
        network_calls (trace_of (is_healthy W s)) = 0).
Proof.
  destruct s as [cfg handle held]. cbn [config_mutex_]. intros ->.
  unfold reports_ready, is_healthy, lock_guard, bind, finally, try_catch, lock,
    unlock, read_config, read_client, Get, lift, ret, throw, set_mutex,
    trace_of, state_of, outcome_of, network_calls. cbn.
  destruct (enabled cfg) eqn:Hon; cbn.
  2:{ exists false. split; [reflexivity|]. split; [reflexivity|].
      split; [split; [discriminate | intros (H & _); discriminate]|].
      split; [lia | reflexivity]. }
  destruct handle as [client|]; cbn.
  2:{ exists false. split; [reflexivity|]. split; [reflexivity|].
      split; [split; [discriminate|]|].
      - intros (_ & c & b & p & H & _). discriminate.
      - split; [lia | reflexivity]. }
  fold health_endpoint.
  assert (Calls : forall A (x y : A),
            true = false \/ Some client = None -> x = y).
  { intros A x y [H|H]; discriminate. }
  destruct (http_Get W client health_endpoint) as [[status body]|] eqn:Hget; cbn.
  2:{ exists false. split; [reflexivity|]. split; [reflexivity|].
      split; [split; [discriminate|]|].
      - intros (_ & c & b & p & [= <-] & H & _). congruence.
      - split; [lia | apply Calls]. }
  destruct (status =? 200)%Z eqn:Hst; cbn.
  2:{ exists false. split; [reflexivity|]. split; [reflexivity|].
      split; [split; [discriminate|]|].
      - intros (_ & c & b & p & [= <-] & H & _).
        rewrite Hget in H. injection H as -> _. discriminate.
      - split; [lia | apply Calls]. }
  apply Z.eqb_eq in Hst. subst status.
  destruct (json_parse W body) as [parsed|e] eqn:Hparse; cbn.
  2:{ exists false. split; [reflexivity|]. split; [reflexivity|].
      split; [split; [discriminate|]|].
      - intros (_ & c & b & p & [= <-] & H & Hp & _).
        rewrite Hget in H. injection H as <-. congruence.
      - split; [lia | apply Calls]. }
  destruct (value get_bool parsed "ready" false) as [ready|e] eqn:Hready; cbn.
  - exists ready. split; [reflexivity|]. split; [reflexivity|].
    split; [split|].
    + intros ->. split; [reflexivity|]. exists client, body, parsed.
      repeat split; auto. now apply value_ready_true.
    + intros (_ & c & b & p & [= <-] & H & Hp & Hm).
      rewrite Hget in H. injection H as <-. rewrite Hparse in Hp.
      injection Hp as <-. apply value_ready_true in Hm. congruence.
    + split; [lia | apply Calls].
  - exists false. split; [reflexivity|]. split; [reflexivity|].
    split; [split; [discriminate|]|].
    + intros (_ & c & b & p & [= <-] & H & Hp & Hm).
      rewrite Hget in H. injection H as <-. rewrite Hparse in Hp.
      injection Hp as <-. apply value_ready_true in Hm. congruence.
    + split; [lia | apply Calls].
Qed.

(** X2. From a state in which the mutex is free, [make_request] always
    returns (no fault escapes it), leaves the object as it was with the
    mutex free again, and sends at most one request.  Without a handle,
    or when the body does not serialize, it returns no payload and sends
    nothing. *)
Theorem make_request_contained (endpoint : string) (body : json)
    (s : RAGMiddleware) :
  config_mutex_ s = false ->
  exists answer,
    outcome_of (make_request W endpoint body s) = Returned answer
    /\ state_of (make_request W endpoint body s) = s
    /\ network_calls (trace_of (make_request W endpoint body s)) <= 1
    /\ (http_client_ s = None ->
        answer = None
        /\ network_calls (trace_of (make_request W endpoint body s)) = 0)
    /\ (forall e, json_dump W body = Raise e ->
        answer = None
        /\ network_calls (trace_of (make_request W endpoint body s)) = 0).
Proof.
  destruct s as [cfg handle held]. cbn [config_mutex_]. intros ->.
  unfold make_request, lock_guard, bind, finally, try_catch, lock,
    unlock, read_client, Post, lift, ret, throw, set_mutex, trace_of,
    state_of, outcome_of, network_calls. cbn.
  destruct handle as [client|]; cbn.
  2:{ eexists. repeat split; auto. }
  destruct (json_dump W body) as [text|e]; cbn.
  2:{ eexists. repeat split; auto; discriminate. }
  destruct (http_Post W client endpoint text "application/json")
    as [[status res_body]|]; cbn.
  2:{ eexists. repeat split; auto; discriminate. }
  destruct (status =? 200)%Z; cbn.
  2:{ eexists. repeat split; auto; discriminate. }
  destruct (json_parse W res_body); cbn; eexists; repeat split; auto;
    discriminate.
Qed.

Lemma make_request_one_call (endpoint : string) (body : json)
    (s : RAGMiddleware) :
  config_mutex_ s = false ->
  network_calls (trace_of (make_request W endpoint body s)) <= 1.
Proof.
  destruct s as [cfg handle held]. cbn [config_mutex_]. intros ->.
  unfold make_request, lock_guard, bind, finally, try_catch, lock,
    unlock, read_client, Post, lift, ret, throw, set_mutex, trace_of,
    network_calls. cbn.
  destruct handle as [client|]; cbn; [|auto].
  destruct (json_dump W body) as [text|e]; cbn; [|auto].
  destruct (http_Post W client endpoint text "application/json")
    as [[status res_body]|]; cbn; [|auto].
  destruct (status =? 200)%Z; cbn; [|auto].
  destruct (json_parse W res_body); cbn; auto.
Qed.

(** X3. From a state in which the mutex is free, [augment_query] always
    returns a bundle (no fault escapes it), leaves the object as it was
    with the mutex free again, sends at most one request (there is no
    retry), and the success flag of the bundle is assigned. *)
Theorem augment_query_contained (ticks_per_ms start_time end_time : Z)
    (query session_id : string) (s : RAGMiddleware) :
  config_mutex_ s = false ->
  let run := augment_query W ticks_per_ms start_time end_time query session_id s in
  exists r flag,
    outcome_of run = Returned r
    /\ state_of run = s
    /\ network_calls (trace_of run) <= 1
    /\ success r = Some flag.
Proof.
  intros Hfree run. subst run.
  destruct (enabled (config_ s)) eqn:Hon.
  2:{ unfold augment_query, bind, read_config, outcome_of, state_of, trace_of.
      cbn. rewrite Hon. cbn. eexists. eexists. repeat split. auto. }
  destruct (string_empty query) eqn:Hq.
  { unfold augment_query, bind, read_config, outcome_of, state_of, trace_of.
    cbn. rewrite Hon, Hq. cbn. eexists. eexists. repeat split. auto. }
  destruct (build_request_ok query session_id (max_results (config_ s))
              (similarity_threshold (config_ s)) (include_tools (config_ s)))
    as [request Hrequest].
  rewrite (augment_query_run W _ _ _ _ _ _ _ Hfree Hon Hq Hrequest).
  unfold outcome_of, state_of. cbn [trace_of fst snd].
  pose proof (make_request_one_call augment_endpoint request s Hfree) as Hone.
  destruct (dispatch W (http_client_ s) augment_endpoint request);
    eexists; eexists; (split; [reflexivity|]); (split; [reflexivity|]);
    (split; [|reflexivity]);
    rewrite network_calls_app; exact Hone.
Qed.

(** X4. When the feature is on, the query is not empty, and the dispatcher
    returns no payload (no handle, no response, a status other than 200,
    a body that does not parse), [augment_query] returns a failure with
    the message [Failed to get response from Aurapai], no context, no
    chunks, no tools, and the measured latency. *)
Theorem augment_query_dispatch_failure (ticks_per_ms start_time end_time : Z)
    (query session_id : string) (s : RAGMiddleware) (request : json) :
  config_mutex_ s = false ->
  enabled (config_ s) = true ->
  query <> "" ->
  request_of s query session_id = Ok request ->
  outcome_of (make_request W augment_endpoint request s) = Returned None ->
  outcome_of (augment_query W ticks_per_ms start_time end_time query session_id s)
  = Returned
      {| augmented_context := ""; chunks := []; suggested_tools := [];
         latency_ms := Some (measured ticks_per_ms start_time end_time);
         success := Some false;
         error_message := "Failed to get response from Aurapai" |}.
Proof.
  intros Hfree Hon Hquery Hrequest Hnone.
  assert (Hq : string_empty query = false)
    by (destruct query; [now destruct Hquery | reflexivity]).
  rewrite (augment_query_run W _ _ _ _ _ _ _ Hfree Hon Hq Hrequest).
  rewrite (make_request_run W _ _ _ Hfree) in Hnone.
  unfold outcome_of in *. cbn [snd] in *. injection Hnone as ->. reflexivity.
Qed.

Lemma build_request_value (query session_id : string) (n : Z)
    (threshold : c_float) (tools : bool) :
  build_request query session_id n threshold tools
  = Ok (JObj (if string_empty session_id then
                [("include_tools", JBool tools); ("max_results", JInt n);
                 ("query", JStr query);
                 ("similarity_threshold", JFloat (double_of_float threshold))]
              else
                [("include_tools", JBool tools); ("max_results", JInt n);
                 ("query", JStr query); ("session_id", JStr session_id);
                 ("similarity_threshold", JFloat (double_of_float threshold))])).
Proof.
  unfold build_request. destruct (string_empty session_id); reflexivity.
Qed.

(** X5. The request of [augment_query] is an object with the members
    [query], [max_results], [similarity_threshold] and [include_tools],
    taken from the arguments, and with the member [session_id] exactly
    when the session identifier is not empty; it has no other member. *)
Theorem build_request_shape (query session_id : string) (n : Z)
    (threshold : c_float) (tools : bool) :
  exists request,
    build_request query session_id n threshold tools = Ok request
    /\ member "query" request = Some (JStr query)
    /\ member "max_results" request = Some (JInt n)
    /\ member "similarity_threshold" request
       = Some (JFloat (double_of_float threshold))
    /\ member "include_tools" request = Some (JBool tools)
    /\ member "session_id" request
       = (if string_empty session_id then None else Some (JStr session_id))
    /\ forall key v, member key request = Some v -> In key request_keys.
Proof.
  rewrite build_request_value.
  destruct (string_empty session_id); eexists;
    (split; [reflexivity|]); repeat (split; [reflexivity|]);
    intros key v H; unfold request_keys; cbn [member obj_find] in H;
    repeat match type of H with
           | context [(?k =? key)%string] =>
               destruct (String.eqb_spec k key) as [<-|_]; [cbn; auto 10|]
           end;
    discriminate H.
Qed.

End RequestFacts.

(* ================================================================== *)
(** ** More properties: the translation of an answer *)

Section TranslationFacts.
Context {F : FloatRepr}.

Lemma loop_over_member {S} (payload : json) (key : string)
    (body : json -> Prog S unit) (r : S) :
  (if contains payload key then for_each (items (const_at payload key)) body
   else ret tt) r
  = for_each (elements (member key payload)) body r.
Proof.
  destruct payload; cbn; try reflexivity.
  destruct (obj_find key m); reflexivity.
Qed.

Lemma for_each_tools (l : list json) :
  forall r, for_each l parse_tool r = ([], push_tools (texts_of l) r, Returned tt).
Proof.
  induction l as [|tool l IH]; intros r; [reflexivity|].
  cbn [for_each]. unfold bind.
  destruct tool; unfold parse_tool; cbn; rewrite IH; reflexivity.
Qed.

Lemma for_each_chunks_ok (good : list json) (cs : list ContextChunk) :
  Forall2 (fun j c => chunk_of j = Ok c) good cs ->
  forall r, for_each good parse_chunk r = ([], push_chunks cs r, Returned tt).
Proof.
  induction 1 as [|j c good cs Hj _ IH]; intros r; [reflexivity|].
  cbn [for_each]. unfold bind. rewrite parse_chunk_run, Hj, IH. reflexivity.
Qed.

Lemma suggested_tools_push_tools (ts : list string) :
  forall r, suggested_tools (push_tools ts r) = (suggested_tools r ++ ts)%list.
Proof.
  unfold push_tools. induction ts as [|t ts IH]; intros r; cbn [fold_left].
  - now rewrite app_nil_r.
  - rewrite IH. cbn. now rewrite <- app_assoc.
Qed.

Lemma push_tools_frame (ts : list string) :
  forall r,
    augmented_context (push_tools ts r) = augmented_context r
    /\ chunks (push_tools ts r) = chunks r
    /\ latency_ms (push_tools ts r) = latency_ms r
    /\ success (push_tools ts r) = success r
    /\ error_message (push_tools ts r) = error_message r.
Proof.
  unfold push_tools. induction ts as [|t ts IH]; intros r; cbn [fold_left].
  - repeat split.
  - destruct (IH (push_tool t r)) as (H1 & H2 & H3 & H4 & H5).
    rewrite H1, H2, H3, H4, H5. repeat split.
Qed.

Lemma push_chunks_frame (cs : list ContextChunk) :
  forall r,
    augmented_context (push_chunks cs r) = augmented_context r
    /\ suggested_tools (push_chunks cs r) = suggested_tools r
    /\ latency_ms (push_chunks cs r) = latency_ms r
    /\ success (push_chunks cs r) = success r
    /\ error_message (push_chunks cs r) = error_message r.
Proof.
  unfold push_chunks. induction cs as [|c cs IH]; intros r; cbn [fold_left].
  - repeat split.
  - destruct (IH (push_chunk c r)) as (H1 & H2 & H3 & H4 & H5).
    rewrite H1, H2, H3, H4, H5. repeat split.
Qed.

Lemma response_ext (r r' : RAGResponse) :
  augmented_context r = augmented_context r' ->
  chunks r = chunks r' ->
  suggested_tools r = suggested_tools r' ->
  latency_ms r = latency_ms r' ->
  success r = success r' ->
  error_message r = error_message r' ->
  r = r'.
Proof.
  destruct r, r'. cbn. intros. subst. reflexivity.
Qed.

Lemma for_each_chunks_first_fault (l : list json) :
  forall r,
    outcome_of (for_each l parse_chunk r)
    = match first_chunk_fault l with
      | Some e => Thrown e
      | None => Returned tt
      end.
Proof.
  induction l as [|chunk_json l IH]; intros r; [reflexivity|].
  cbn [for_each first_chunk_fault]. unfold bind.
  rewrite parse_chunk_run.
  destruct (chunk_of chunk_json) as [c|e]; [|reflexivity].
  specialize (IH (push_chunk c r)).
  destruct (for_each l parse_chunk (push_chunk c r)) as [[t r'] o].
  unfold outcome_of in *. cbn in *. exact IH.
Qed.

Lemma translation_first_fault (payload : json) :
  outcome_of (translation payload)
  = match first_fault payload with
    | Some e => Thrown e
    | None => Returned tt
    end.
Proof.
  unfold translation, parse_fields, first_fault.
  unfold bind, lift, modify.
  destruct (value get_string payload "augmented_context" "") as [context|e];
    [|reflexivity].
  destruct (value get_float payload "latency_ms" (float_of_int 0))
    as [latency|e]; [|reflexivity].
  cbn [ret]. rewrite loop_over_member.
  set (r0 := set_latency_ms latency
               (set_augmented_context context
                  (set_success true RAGResponse_decl))).
  pose proof (for_each_chunks_first_fault
                (elements (member "chunks" payload)) r0) as H.
  destruct (for_each (elements (member "chunks" payload)) parse_chunk r0)
    as [[t r1] o].
  unfold outcome_of in H. cbn [snd] in H. subst o.
  destruct (first_chunk_fault (elements (member "chunks" payload)));
    [reflexivity|].
  rewrite loop_over_member, for_each_tools. reflexivity.
Qed.

(** X6. The verdict of [parse_response] is decided by the first
    conversion that faults, in the order in which the function makes
    them: the context, the latency, and then the elements of [chunks] one
    after the other.  When none faults, success is true and the error
    message is empty.  When the first fault is [e], success is false and
    the error message is [Parse error: ] followed by [e.what()] of that
    very fault.  The entries of [suggested_tools] never decide it. *)
Theorem parse_response_verdict (payload : json) :
  (first_fault payload = None ->
   success (parse_response payload) = Some true
   /\ error_message (parse_response payload) = "")
  /\ (forall e,
        first_fault payload = Some e ->
        success (parse_response payload) = Some false
        /\ error_message (parse_response payload) = "Parse error: " ++ what e).
Proof.
  pose proof (translation_first_fault payload) as H.
  split.
  - intros Hnone. rewrite Hnone in H.
    rewrite (parse_response_translated _ H).
    split; [apply collected_success | apply collected_error_message].
  - intros e Hsome. rewrite Hsome in H.
    rewrite (parse_response_faulted _ _ H). split; reflexivity.
Qed.

(** X7. An answer that is not an object (an array, a text, a number, a
    boolean, null) is a failure: [parse_response] returns success false
    and the message of the type error 306 of [value], with no context,
    no chunks, no tools, and a latency that was never assigned. *)
Theorem parse_response_not_object (payload : json) :
  (forall m, payload <> JObj m) ->
  parse_response payload
  = {| augmented_context := ""; chunks := []; suggested_tools := [];
       latency_ms := None; success := Some false;
       error_message :=
         "Parse error: "
         ++ what (type_error 306
                    ("cannot use value() with " ++ type_name payload)) |}.
Proof.
  intros H. destruct payload; try reflexivity. now destruct (H m).
Qed.

(** X8. When the context and the latency of the answer convert (each is
    missing or of the right type) and every element of [chunks] converts
    to a chunk, [parse_response] returns a success whose chunks are those
    chunks in the order of the answer, and whose tools are the texts of
    [suggested_tools] in their order: the entries that are not texts are
    skipped without a fault.  A missing [chunks] or [suggested_tools]
    gives the empty sequence. *)
Theorem parse_response_well_formed (payload : json) (context : string)
    (latency : c_float) (cs : list ContextChunk) :
  value get_string payload "augmented_context" "" = Ok context ->
  value get_float payload "latency_ms" (float_of_int 0) = Ok latency ->
  Forall2 (fun j c => chunk_of j = Ok c) (elements (member "chunks" payload)) cs ->
  parse_response payload
  = {| augmented_context := context; chunks := cs;
       suggested_tools := texts_of (elements (member "suggested_tools" payload));
       latency_ms := Some latency; success := Some true;
       error_message := "" |}.
Proof.
  intros Hc Hl Hchunks.
  unfold parse_response, parse_fields.
  unfold bind, try_catch, lift, modify. rewrite Hc, Hl. cbn [ret].
  rewrite loop_over_member, (for_each_chunks_ok _ _ Hchunks).
  rewrite loop_over_member, for_each_tools.
  unfold state_of. cbn [fst snd].
  set (r0 := set_latency_ms latency
               (set_augmented_context context
                  (set_success true RAGResponse_decl))).
  set (ts := texts_of (elements (member "suggested_tools" payload))).
  destruct (push_tools_frame ts (push_chunks cs r0)) as (T1 & T2 & T3 & T4 & T5).
  destruct (push_chunks_frame cs r0) as (C1 & C2 & C3 & C4 & C5).
  apply response_ext; cbn [augmented_context chunks suggested_tools latency_ms
                           success error_message].
  - now rewrite T1, C1.
  - now rewrite T2, chunks_push_chunks.
  - now rewrite suggested_tools_push_tools, C2.
  - now rewrite T3, C3.
  - now rewrite T4, C4.
  - now rewrite T5, C5.
Qed.

(** X9. When the fault comes from an element of [chunks], after elements
    that convert, [parse_response] returns a failure with the parse-error
    message of that fault; it keeps the context, the service's latency
    and the chunks read before the fault, and it has no tools, since the
    tools are read after the chunks. *)
Theorem parse_response_fault_in_chunks (payload : json) (context : string)
    (latency : c_float) (good : list json) (cs : list ContextChunk)
    (bad : json) (rest : list json) (e : exception) :
  value get_string payload "augmented_context" "" = Ok context ->
  value get_float payload "latency_ms" (float_of_int 0) = Ok latency ->
  member "chunks" payload = Some (JArr (good ++ bad :: rest)) ->
  Forall2 (fun j c => chunk_of j = Ok c) good cs ->
  chunk_of bad = Raise e ->
  parse_response payload
  = {| augmented_context := context; chunks := cs; suggested_tools := [];
       latency_ms := Some latency; success := Some false;
       error_message := "Parse error: " ++ what e |}.
Proof.
  intros Hc Hl Hm Hgood Hbad.
  unfold parse_response, parse_fields.
  unfold bind, try_catch, lift, modify. rewrite Hc, Hl. cbn [ret].
  rewrite loop_over_member, Hm. cbn [elements items].
  rewrite (for_each_chunks_fault good cs Hgood bad e rest _ Hbad).
  unfold state_of. cbn [fst snd].
  set (r0 := set_latency_ms latency
               (set_augmented_context context
                  (set_success true RAGResponse_decl))).
  destruct (push_chunks_frame cs r0) as (C1 & C2 & C3 & C4 & C5).
  apply response_ext; cbn [augmented_context chunks suggested_tools latency_ms
                           success error_message set_error_message set_success];
    try reflexivity.
  - now rewrite C1.
  - now rewrite chunks_push_chunks.
  - now rewrite C2.
  - now rewrite C3.
Qed.

(** X10. The chunk read from an element that is an object takes each
    field from the member of that name, and the default where the member
    is missing: the empty text for [content], [unknown] for [source], 0
    for [similarity].  An element that is not an object is a fault, the
    type error 306, and nothing is added to the bundle. *)
Theorem parse_chunk_fields (chunk_json : json) (r : RAGResponse) :
  (forall m,
     chunk_json = JObj m ->
     outcome_of (parse_chunk chunk_json r) = Returned tt ->
     exists c,
       state_of (parse_chunk chunk_json r) = push_chunk c r
       /\ content c
          = match obj_find "content" m with Some (JStr s) => s | _ => "" end
       /\ source c
          = match obj_find "source" m with
            | Some (JStr s) => s
            | _ => "unknown"
            end
       /\ match obj_find "similarity" m with
          | Some v => get_float v = Ok (similarity c)
          | None => similarity c = float_of_int 0
          end)
  /\ ((forall m, chunk_json <> JObj m) ->
      parse_chunk chunk_json r
      = ([], r,
         Thrown (type_error 306
                   ("cannot use value() with " ++ type_name chunk_json)))).
Proof.
  split.
  - intros m ->. rewrite parse_chunk_run. unfold chunk_of, value, result_bind.
    destruct (obj_find "content" m) as [[]|]; cbn; try discriminate;
      destruct (obj_find "source" m) as [[]|]; cbn; try discriminate;
      destruct (obj_find "similarity" m) as [v|]; cbn;
      try (destruct (get_float v) eqn:Hv; cbn; try discriminate);
      intros _; eexists; repeat split; eauto.
  - intros H. destruct chunk_json; try reflexivity. now destruct (H m).
Qed.

End TranslationFacts.

(* ================================================================== *)
(** ** More properties: the connection *)

Section ConnectionFacts.
Context {F : FloatRepr}.
Variable W : World.

(** X11. The constructor returns an object that holds the configuration
    it was given, with the mutex free, and without having used the
    network.  The object has a handle exactly when the configuration is
    enabled, and then it is the handle built for that configuration. *)
Theorem RAGMiddleware_new_state (config : RAGConfig) :
  outcome_of (RAGMiddleware_new W config) = Returned tt
  /\ state_of (RAGMiddleware_new W config)
     = {| config_ := config;
          http_client_ :=
            if enabled config then Some (built_client W config) else None;
          config_mutex_ := false |}
  /\ network_calls (trace_of (RAGMiddleware_new W config)) = 0.
Proof.
  unfold RAGMiddleware_new, bind, read_config. cbn.
  destruct (enabled config); [|repeat split].
  rewrite init_http_client_run by reflexivity. repeat split.
Qed.

(** X12. The read timeout and the write timeout of the handle that
    [init_http_client] stores are the same pair of seconds and
    microseconds, and the pair stands for the configured timeout: seconds
    times 1000000 plus microseconds is the timeout in milliseconds times
    1000.  For a timeout that is not negative, the microseconds are
    below one second. *)
Theorem init_http_client_timeouts (s : RAGMiddleware) :
  config_mutex_ s = false ->
  exists c sec usec,
    http_client_ (state_of (init_http_client W s)) = Some c
    /\ cl_read_timeout c = Some (sec, usec)
    /\ cl_write_timeout c = Some (sec, usec)
    /\ (sec * 1000000 + usec = timeout_ms (config_ s) * 1000)%Z
    /\ ((0 <= timeout_ms (config_ s))%Z ->
        (0 <= sec /\ 0 <= usec < 1000000)%Z).
Proof.
  intros Hfree. rewrite (init_http_client_run W s Hfree).
  unfold state_of. cbn [fst snd http_client_].
  exists (built_client W (config_ s)),
    (Z.quot (timeout_ms (config_ s)) 1000),
    (Z.rem (timeout_ms (config_ s)) 1000 * 1000)%Z.
  split; [reflexivity|].
  unfold built_client.
  destruct (connection_target (aurapai_host (config_ s))
              (aurapai_port (config_ s))) as [[use_https host] port].
  split; [reflexivity|]. split; [reflexivity|].
  pose proof (Z.quot_rem' (timeout_ms (config_ s)) 1000) as E.
  split; [lia|]. intros Hpos.
  pose proof (Z.rem_bound_pos (timeout_ms (config_ s)) 1000 Hpos ltac:(lia)).
  pose proof (Z.quot_pos (timeout_ms (config_ s)) 1000 Hpos ltac:(lia)).
  lia.
Qed.


End ConnectionFacts.

(* ================================================================== *)
(** ** More properties: the mutex *)

Section MutexFacts.
Context {F : FloatRepr}.
Variable W : World.

Lemma init_http_client_waits (s : RAGMiddleware) :
  config_mutex_ s = true -> init_http_client W s = ([], s, Blocked).
Proof.
  intros H. unfold init_http_client, lock_guard, bind, lock. now rewrite H.
Qed.

Lemma make_request_waits (endpoint : string) (body : json) (s : RAGMiddleware) :
  config_mutex_ s = true -> make_request W endpoint body s = ([], s, Blocked).
Proof.
  intros H. unfold make_request, lock_guard, bind, lock. now rewrite H.
Qed.

(** X14. When host, port or enabled differs from the stored values and
    the new configuration is enabled, [update_config] never returns: it
    stores the new configuration and then waits for [config_mutex_],
    which it holds itself.  The handle is the old one, the network was
    not used, and the mutex stays held. *)
Theorem update_config_deadlock (config : RAGConfig) (s : RAGMiddleware) :
  config_mutex_ s = false ->
  identity_changed (config_ s) config = true ->
  enabled config = true ->
  outcome_of (update_config W config s) = Blocked
  /\ state_of (update_config W config s) = with_config config true s
  /\ Forall quiet (trace_of (update_config W config s)).
Proof.
  intros Hfree Hchanged Hon.
  destruct (update_config_run W config s Hfree) as (t & Ht & ->).
  rewrite Hchanged, Hon. unfold after, finally.
  rewrite init_http_client_waits by reflexivity.
  unfold outcome_of, state_of, trace_of. cbn [fst snd].
  split; [reflexivity|]. split; [reflexivity|].
  rewrite app_nil_r. constructor; [split; [discriminate | reflexivity]|].
  apply Forall_app. split.
  - eapply Forall_impl; [|exact Ht]. intros x ->.
    split; [discriminate | reflexivity].
  - repeat constructor; discriminate.
Qed.

(** X15. While [config_mutex_] is held, [make_request],
    [init_http_client] and [update_config] wait for it at once, and so do
    [is_healthy] and [augment_query] once they are past their checks,
    before any request is sent.  With the feature off, [is_healthy] and
    [augment_query] return without waiting, and so does [augment_query]
    on the empty query. *)
Theorem operations_wait_for_mutex (ticks_per_ms start_time end_time : Z)
    (query session_id : string) (s : RAGMiddleware) :
  config_mutex_ s = true ->
  (forall endpoint body, make_request W endpoint body s = ([], s, Blocked))
  /\ init_http_client W s = ([], s, Blocked)
  /\ (forall config, update_config W config s = ([], s, Blocked))
  /\ (enabled (config_ s) = true ->
      is_healthy W s = ([EvConfigRead], s, Blocked))
  /\ (enabled (config_ s) = true -> query <> "" ->
      outcome_of (augment_query W ticks_per_ms start_time end_time query
                    session_id s) = Blocked
      /\ network_calls
           (trace_of (augment_query W ticks_per_ms start_time end_time query
                        session_id s)) = 0)
  /\ (enabled (config_ s) = false ->
      outcome_of (is_healthy W s) = Returned false
      /\ exists r,
           outcome_of (augment_query W ticks_per_ms start_time end_time query
                         session_id s) = Returned r)
  /\ (query = "" ->
      exists r,
        outcome_of (augment_query W ticks_per_ms start_time end_time query
                      session_id s) = Returned r).
Proof.
  intros Hheld.
  split; [intros; now apply make_request_waits|].
  split; [now apply init_http_client_waits|].
  split.
  { intros config. unfold update_config, lock_guard, bind, lock.
    now rewrite Hheld. }
  split.
  { intros Hon.
    cbv beta iota zeta delta [is_healthy lock_guard try_catch bind read_config
                              lock].
    rewrite Hon. cbn [negb]. rewrite Hheld. reflexivity. }
  split.
  { intros Hon Hquery.
    assert (Hq : string_empty query = false)
      by (destruct query; [now destruct Hquery | reflexivity]).
    destruct (build_request_ok query session_id (max_results (config_ s))
                (similarity_threshold (config_ s)) (include_tools (config_ s)))
      as [request Hrequest].
    cbv beta iota zeta delta [augment_query bind try_catch read_config lift ret].
    rewrite Hon, Hq. cbn [negb]. rewrite Hrequest.
    rewrite make_request_waits by exact Hheld. split; reflexivity. }
  split.
  { intros Hoff. split.
    - unfold is_healthy, bind, read_config. now rewrite Hoff.
    - unfold augment_query, bind, read_config. rewrite Hoff. cbn. eauto. }
  intros ->. unfold augment_query, bind, read_config.
  destruct (enabled (config_ s)); cbn; eauto.
Qed.

Lemma guarded_connection_guarded (t : list event) :
  forall held, guarded held t = true -> connection_guarded held t = true.
Proof.
  induction t as [|e t IH]; intros held H; [reflexivity|].
  destruct e; cbn in *; auto;
    apply andb_true_iff in H as [-> H]; cbn; auto.
Qed.

(** X16. From a state in which the mutex is free, every access to the
    connection handle and every request, in [augment_query], [is_healthy],
    [make_request], [update_config] and [init_http_client], happens while
    [config_mutex_] is held. *)
Theorem connection_accessed_under_lock (ticks_per_ms start_time end_time : Z)
    (query session_id : string) (endpoint : string) (body : json)
    (config : RAGConfig) (s : RAGMiddleware) :
  config_mutex_ s = false ->
  connection_guarded false
    (trace_of (augment_query W ticks_per_ms start_time end_time query
                 session_id s)) = true
  /\ connection_guarded false (trace_of (is_healthy W s)) = true
  /\ connection_guarded false (trace_of (make_request W endpoint body s)) = true
  /\ connection_guarded false (trace_of (update_config W config s)) = true
  /\ connection_guarded false (trace_of (init_http_client W s)) = true.
Proof.
  intros Hfree.
  split; [|split; [|split; [|split]]].
  - destruct (enabled (config_ s)) eqn:Hon.
    2:{ unfold augment_query, bind, read_config, trace_of. cbn.
        rewrite Hon. reflexivity. }
    destruct (string_empty query) eqn:Hq.
    { unfold augment_query, bind, read_config, trace_of. cbn.
      rewrite Hon, Hq. reflexivity. }
    destruct (build_request_ok query session_id (max_results (config_ s))
                (similarity_threshold (config_ s)) (include_tools (config_ s)))
      as [request Hrequest].
    rewrite (augment_query_run W _ _ _ _ _ _ _ Hfree Hon Hq Hrequest).
    cbn [trace_of fst app connection_guarded].
    apply guarded_connection_guarded.
    exact (make_request_guarded W augment_endpoint request s Hfree).
  - destruct s as [cfg handle held]. cbn [config_mutex_] in Hfree. subst held.
    unfold is_healthy, lock_guard, bind, finally, try_catch, lock,
      unlock, read_config, read_client, Get, lift, ret, throw, set_mutex,
      trace_of. cbn.
    destruct (enabled cfg); cbn; [|reflexivity].
    destruct handle as [client|]; cbn; [|reflexivity].
    destruct (http_Get W client "/api/v1/llama/health")
      as [[status res_body]|]; cbn; [|reflexivity].
    destruct (status =? 200)%Z; cbn; [|reflexivity].
    destruct (json_parse W res_body) as [parsed|]; cbn; [|reflexivity].
    destruct (value get_bool parsed "ready" false); reflexivity.
  - apply guarded_connection_guarded, make_request_guarded, Hfree.
  - apply guarded_connection_guarded, update_config_guarded, Hfree.
  - apply guarded_connection_guarded, init_http_client_guarded, Hfree.
Qed.

(** X17. Whatever branch [update_config] takes, also the one that never
    returns, the configuration it leaves in the object is the new one:
    [get_config] on that object gives the configuration that was
    passed. *)
Theorem get_config_after_update_config (config : RAGConfig)
    (s : RAGMiddleware) :
  config_mutex_ s = false ->
  outcome_of (get_config (state_of (update_config W config s)))
  = Returned config.
Proof.
  intros Hfree.
  destruct (update_config_run W config s Hfree) as (t & _ & ->).
  destruct (identity_changed (config_ s) config); [|reflexivity].
  destruct (enabled config); [|reflexivity].
  unfold after, finally. rewrite init_http_client_waits by reflexivity.
  reflexivity.
Qed.

End MutexFacts.

(* ================================================================== *)
(** ** More properties: the helpers *)

Section HelperFacts.
Context {F : FloatRepr}.

Lemma Forall2_same_refl (l : list json) : Forall2 same_but_content l l.
Proof.
  induction l; constructor; auto. intros key _. reflexivity.
Qed.

Lemma Forall2_rev_both {A B} (R : A -> B -> Prop) (l : list A) (l' : list B) :
  Forall2 R l l' -> Forall2 R (rev l) (rev l').
Proof.
  induction 1; cbn; [constructor|].
  apply Forall2_app; [assumption | repeat constructor; assumption].
Qed.

Lemma inject_from_back_same (injection : string) (l : list json) :
  forall l', inject_from_back injection l = Ok l' -> Forall2 same_but_content l l'.
Proof.
  induction l as [|it l IH]; intros l' H; cbn [inject_from_back] in H.
  - injection H as <-. constructor.
  - destruct (is_user_turn it) eqn:Huser.
    + destruct it as [| | | | | | |m]; try (cbn in Huser; discriminate Huser).
      destruct (value get_string (JObj m) "content" "") as [c|]; [|discriminate].
      cbn [result_bind assign_at] in H. injection H as <-.
      constructor; [|apply Forall2_same_refl].
      intros key Hkey. cbn [member]. now apply obj_find_set_other.
    + destruct (inject_from_back injection l) as [l0|]; [|discriminate].
      cbn in H. injection H as <-. constructor; [|now apply IH].
      intros key _. reflexivity.
Qed.

(** X18. Whenever [inject_context_into_messages] returns a transcript
    for a transcript that is a sequence, the result is a sequence of the
    same number of turns, and each turn agrees with the turn it comes
    from on every member but [content]: no turn is added, dropped or
    moved, and no role changes. *)
Theorem inject_context_keeps_turns (now : tm) (turns : list json)
    (rag_context : string) (out : json) :
  inject_context_into_messages now (JArr turns) rag_context = Ok out ->
  exists turns',
    out = JArr turns'
    /\ List.length turns' = List.length turns
    /\ Forall2 same_but_content turns turns'.
Proof.
  unfold inject_context_into_messages. intros H.
  destruct (inject_from_back (injection_of now rag_context) (rev turns))
    as [l|] eqn:E; [|discriminate].
  cbn in H. injection H as <-. exists (rev l).
  apply inject_from_back_same, Forall2_rev_both in E.
  rewrite rev_involutive in E.
  split; [reflexivity|]. split; [|exact E].
  symmetry. exact (Forall2_length E).
Qed.

Lemma inject_last_user_run (now : tm) (before after : list json)
    (m : list (string * json)) (original rag_context : string) :
  obj_find "role" m = Some (JStr "user") ->
  (forall t, In t after -> ~ role_is "user" t) ->
  text_content (JObj m) = Some original ->
  inject_context_into_messages now (JArr (before ++ JObj m :: after)) rag_context
  = Ok (JArr (before
              ++ JObj (obj_set "content"
                         (JStr ((injection_of now rag_context ++ query_separator)
                                ++ original)) m)
              :: after)).
Proof.
  intros Hrole Hafter Htext. unfold inject_context_into_messages.
  rewrite rev_app_distr. cbn [rev]. rewrite <- app_assoc. cbn [app].
  rewrite inject_from_back_skips
    by (intros t Ht; apply is_user_turn_not_role, Hafter; now apply in_rev).
  cbn [inject_from_back].
  rewrite (proj2 (is_user_turn_role (JObj m)) Hrole).
  rewrite (value_text_content _ _ Htext). cbn [result_bind assign_at].
  rewrite rev_app_distr. cbn [rev].
  rewrite !rev_involutive, <- !app_assoc. reflexivity.
Qed.

(** X19. The injection is not idempotent.  Injecting a second time into
    the result of a first injection wraps the same turn once more: the
    content of the last user turn becomes the second injection, the
    separator, and then the content the first call left (the first
    injection, the separator, the original content); the other turns are
    as given. *)
Theorem inject_context_twice (now : tm) (before after : list json)
    (m : list (string * json)) (original first second : string) :
  obj_find "role" m = Some (JStr "user") ->
  (forall t, In t after -> ~ role_is "user" t) ->
  text_content (JObj m) = Some original ->
  exists turn'',
    result_bind
      (inject_context_into_messages now (JArr (before ++ JObj m :: after)) first)
      (fun once => inject_context_into_messages now once second)
    = Ok (JArr (before ++ turn'' :: after))
    /\ text_content turn''
       = Some (injection_of now second ++ query_separator
               ++ injection_of now first ++ query_separator ++ original)
    /\ same_but_content (JObj m) turn''.
Proof.
  intros Hrole Hafter Htext.
  rewrite (inject_last_user_run now before after m original first
             Hrole Hafter Htext).
  cbn [result_bind].
  set (v1 := (injection_of now first ++ query_separator) ++ original).
  assert (Hrole1 : obj_find "role" (obj_set "content" (JStr v1) m)
                   = Some (JStr "user"))
    by (rewrite obj_find_set_other; [exact Hrole | discriminate]).
  assert (Htext1 : text_content (JObj (obj_set "content" (JStr v1) m)) = Some v1)
    by (cbn [text_content]; now rewrite obj_find_set_same).
  rewrite (inject_last_user_run now before after _ v1 second
             Hrole1 Hafter Htext1).
  eexists. split; [reflexivity|]. split.
  - cbn [text_content]. rewrite obj_find_set_same. subst v1.
    now rewrite !append_assoc.
  - intros key Hkey. cbn [member].
    rewrite !obj_find_set_other by exact Hkey. reflexivity.
Qed.

(** X20. [format_rag_context] gives the empty string only for the empty
    chunk list.  So the string injected for the formatted context of a
    chunk list is the date note when there is no chunk, and the formatted
    context itself otherwise. *)
Theorem format_rag_context_empty_iff (now : tm) (chunks : list ContextChunk) :
  (format_rag_context chunks = "" <-> chunks = [])
  /\ injection_of now (format_rag_context chunks)
     = match chunks with
       | [] => date_note now
       | _ => format_rag_context chunks
       end.
Proof.
  destruct chunks as [|c rest].
  - split; [split; reflexivity | reflexivity].
  - assert (E : exists tail,
              format_rag_context (c :: rest) = String "[" tail).
    { unfold format_rag_context. rewrite format_chunks_appends.
      cbn [append]. eexists. reflexivity. }
    destruct E as [tail E]. rewrite E.
    split; [split; discriminate | reflexivity].
Qed.

End HelperFacts.

(* ================================================================== *)
(** ** More properties: how the operations compose *)

Section ComposeFacts.
Context {F : FloatRepr}.
Variable W : World.

Lemma any_user_turn_false (turns : list json) :
  any_user_turn turns = false ->
  forall t, In t turns -> is_user_turn t = false.
Proof.
  induction turns as [|x turns IH]; intros H t Hin; [destruct Hin|].
  cbn in H. destruct (is_user_turn x) eqn:E; [discriminate|].
  destruct Hin as [<-|Hin]; [exact E | now apply IH].
Qed.

(** X21. The gate and the injector agree.  When [params] has no member
    [rag_enabled] and [should_use_rag] answers false, the injector
    returns the transcript unchanged, whatever the context: there is no
    user turn to rewrite. *)
Theorem gate_false_injection_unchanged (now : tm) (messages params : json)
    (rag_context : string) :
  member "rag_enabled" params = None ->
  should_use_rag messages params = Ok false ->
  inject_context_into_messages now messages rag_context = Ok messages.
Proof.
  intros Hnone Hgate. apply contains_false_member in Hnone.
  unfold should_use_rag in Hgate. rewrite Hnone in Hgate.
  destruct messages as [| | | | | |turns|]; try reflexivity.
  destruct turns as [|t turns]; [reflexivity|].
  cbn [is_array negb json_empty orb items] in Hgate.
  injection Hgate as Hgate.
  unfold inject_context_into_messages.
  rewrite inject_from_back_no_user.
  - cbn [result_bind]. now rewrite rev_involutive.
  - intros x Hx. apply (any_user_turn_false (t :: turns) Hgate).
    now apply in_rev.
Qed.



(** X23. A middleware constructed with the feature off has no handle and
    never uses the network: on it [augment_query] returns the failure
    [RAG disabled] for every query, and [is_healthy] returns false. *)
Theorem disabled_middleware_is_inert (ticks_per_ms start_time end_time : Z)
    (config : RAGConfig) (query session_id : string) :
  enabled config = false ->
  let s := state_of (RAGMiddleware_new W config) in
  http_client_ s = None
  /\ (exists r,
        augment_query W ticks_per_ms start_time end_time query session_id s
        = ([EvConfigRead], s, Returned r)
        /\ success r = Some false
        /\ error_message r = "RAG disabled")
  /\ is_healthy W s = ([EvConfigRead], s, Returned false).
Proof.
  intros Hoff s. subst s.
  unfold RAGMiddleware_new, bind, read_config. cbn. rewrite Hoff. cbn.
  unfold augment_query, is_healthy, bind, read_config. cbn. rewrite Hoff. cbn.
  split; [reflexivity|]. split; [|reflexivity].
  eexists. repeat split.
Qed.

(** X24. A middleware constructed with the feature on sends the request
    of [augment_query] through the handle built for its configuration:
    for a query that is not empty and a request that serializes, the
    call posts the serialized request to /api/v1/llama/augment as
    application/json on that handle. *)
Theorem enabled_middleware_posts (ticks_per_ms start_time end_time : Z)
    (config : RAGConfig) (query session_id : string) (request : json)
    (text : string) :
  enabled config = true ->
  query <> "" ->
  build_request query session_id (max_results config)
    (similarity_threshold config) (include_tools config) = Ok request ->
  json_dump W request = Ok text ->
  In (EvPost (built_client W config) "/api/v1/llama/augment" text
        "application/json")
     (trace_of (augment_query W ticks_per_ms start_time end_time query
                  session_id (state_of (RAGMiddleware_new W config)))).
Proof.
  intros Hon Hquery Hrequest Hdump.
  assert (Hq : string_empty query = false)
    by (destruct query; [now destruct Hquery | reflexivity]).
  assert (S : state_of (RAGMiddleware_new W config)
              = {| config_ := config;
                   http_client_ := Some (built_client W config);
                   config_mutex_ := false |}).
  { unfold RAGMiddleware_new, bind, read_config. cbn. rewrite Hon.
    rewrite init_http_client_run by reflexivity. reflexivity. }
  rewrite S.
  set (s := {| config_ := config;
               http_client_ := Some (built_client W config);
               config_mutex_ := false |}).
  rewrite (augment_query_run W _ _ _ _ _ s request eq_refl Hon Hq Hrequest).
  cbn [trace_of fst]. apply in_or_app. right.
  now apply make_request_posts.
Qed.

End ComposeFacts.

(* ================================================================== *)
(** ** The answer of the service, end to end *)

Section AnswerFacts.
Context {F : FloatRepr}.
Variable W : World.

(** X25. When the feature is on, the query is not empty, and the service
    answers the request with status 200 and a body that parses to
    [payload], [augment_query] returns the bundle [parse_response] makes of
    [payload], with the success flag set and with the latency replaced by
    the measured one: the latency the service reports in [latency_ms]
    never reaches the caller. *)
Theorem augment_query_answer (ticks_per_ms start_time end_time : Z)
    (query session_id : string) (s : RAGMiddleware) (client : Client)
    (request : json) (text body : string) (payload : json) :
  config_mutex_ s = false ->
  enabled (config_ s) = true ->
  query <> "" ->
  http_client_ s = Some client ->
  request_of s query session_id = Ok request ->
  json_dump W request = Ok text ->
  http_Post W client augment_endpoint text "application/json"
  = Some (200%Z, body) ->
  json_parse W body = Ok payload ->
  exists r,
    outcome_of
      (augment_query W ticks_per_ms start_time end_time query session_id s)
    = Returned r
    /\ r = set_latency_ms (measured ticks_per_ms start_time end_time)
             (set_success true (parse_response payload))
    /\ latency_ms r = Some (measured ticks_per_ms start_time end_time)
    /\ success r = Some true
    /\ augmented_context r = augmented_context (parse_response payload)
    /\ chunks r = chunks (parse_response payload)
    /\ suggested_tools r = suggested_tools (parse_response payload)
    /\ error_message r = error_message (parse_response payload).
Proof.
  intros Hfree Hon Hquery Hclient Hrequest Hdump Hpost Hparse.
  assert (Hq : string_empty query = false)
    by (destruct query; [now destruct Hquery | reflexivity]).
  rewrite (augment_query_run W _ _ _ _ _ _ _ Hfree Hon Hq Hrequest).
  unfold dispatch. rewrite Hclient, Hdump, Hpost. cbn [Z.eqb Pos.eqb].
  rewrite Hparse.
  eexists. split; [reflexivity|]. repeat split.
Qed.

End AnswerFacts.

(* ================================================================== *)
(** ** The faults of the injection *)

Section InjectFaultFacts.
Context {F : FloatRepr}.

Lemma is_user_turn_object (it : json) :
  is_user_turn it = true -> exists m, it = JObj m.
Proof.
  destruct it; try discriminate. intros _. now eexists.
Qed.

Lemma inject_from_back_outcome (injection : string) (l : list json) :
  match find is_user_turn l with
  | None => inject_from_back injection l = Ok l
  | Some turn =>
      match member "content" turn with
      | Some v =>
          if is_string v then exists out, inject_from_back injection l = Ok out
          else inject_from_back injection l
               = Raise (type_error 302
                          ("type must be string, but is " ++ type_name v))
      | None => exists out, inject_from_back injection l = Ok out
      end
  end.
Proof.
  induction l as [|it l IH]; [reflexivity|].
  cbn [find inject_from_back].
  destruct (is_user_turn it) eqn:Huser.
  - destruct (is_user_turn_object it Huser) as [m ->].
    cbn [member value assign_at].
    destruct (obj_find "content" m) as [v|].
    + destruct v; cbn; try reflexivity. eexists. reflexivity.
    + cbn. eexists. reflexivity.
  - destruct (find is_user_turn l) as [turn|].
    + destruct (member "content" turn) as [v|].
      * destruct (is_string v).
        -- destruct IH as [out ->]. cbn. eexists. reflexivity.
        -- rewrite IH. reflexivity.
      * destruct IH as [out ->]. cbn. eexists. reflexivity.
    + rewrite IH. reflexivity.
Qed.

(** X26. The only fault of [inject_context_into_messages].  The call
    returns its input when that is not an array or has no turn with the
    role [user]; it returns a transcript when the last user turn has no
    [content] or a text one; and it propagates the type error 302 of
    [value] when the [content] of the last user turn is there and is not
    text, whatever the other turns are. *)
Theorem inject_context_fault_condition (now : tm) (messages : json)
    (rag_context : string) :
  (last_user_turn messages = None ->
   inject_context_into_messages now messages rag_context = Ok messages)
  /\ forall turn,
       last_user_turn messages = Some turn ->
       (forall v,
          member "content" turn = Some v -> is_string v = false ->
          inject_context_into_messages now messages rag_context
          = Raise (type_error 302
                     ("type must be string, but is " ++ type_name v)))
       /\ ((forall v, member "content" turn = Some v -> is_string v = true) ->
           exists out,
             inject_context_into_messages now messages rag_context = Ok out).
Proof.
  unfold last_user_turn, inject_context_into_messages.
  destruct messages as [| | | | | |turns|];
    try (split; [reflexivity | intros turn H; discriminate H]).
  pose proof (inject_from_back_outcome (injection_of now rag_context)
                (rev turns)) as H.
  destruct (find is_user_turn (rev turns)) as [turn0|].
  - split; [discriminate|]. intros turn [= <-].
    destruct (member "content" turn0) as [v0|].
    + split.
      * intros v [= <-] Hv. rewrite Hv in H. rewrite H. reflexivity.
      * intros Hall. rewrite (Hall v0 eq_refl) in H.
        destruct H as [out ->]. cbn. eexists. reflexivity.
    + split; [discriminate|]. intros _.
      destruct H as [out ->]. cbn. eexists. reflexivity.
  - split; [|discriminate]. intros _. rewrite H. cbn.
    now rewrite rev_involutive.
Qed.

End InjectFaultFacts.

(* ================================================================== *)
(** ** More runs of the model *)

Lemma is_healthy_verdict_witness :
  config_mutex_ middleware_localhost = false
  /\ exists b,
       outcome_of (is_healthy world_ready middleware_localhost) = Returned b
       /\ state_of (is_healthy world_ready middleware_localhost)
          = middleware_localhost
       /\ (b = true <-> reports_ready world_ready middleware_localhost)
       /\ network_calls (trace_of (is_healthy world_ready middleware_localhost))
          <= 1
       /\ (enabled (config_ middleware_localhost) = false
           \/ http_client_ middleware_localhost = None ->
           network_calls
             (trace_of (is_healthy world_ready middleware_localhost)) = 0).
Proof.
  exact (conj eq_refl
           (is_healthy_verdict world_ready middleware_localhost eq_refl)).
Defined.

Lemma make_request_contained_witness :
  config_mutex_ middleware_disabled = false
  /\ http_client_ middleware_disabled = None
  /\ exists answer,
       outcome_of (make_request world_bad_chunk augment_endpoint (JObj [])
                     middleware_disabled) = Returned answer
       /\ state_of (make_request world_bad_chunk augment_endpoint (JObj [])
                      middleware_disabled) = middleware_disabled
       /\ answer = None
       /\ network_calls
            (trace_of (make_request world_bad_chunk augment_endpoint (JObj [])
                         middleware_disabled)) = 0.
Proof.
  split; [reflexivity|]. split; [reflexivity|].
  destruct (make_request_contained world_bad_chunk augment_endpoint (JObj [])
              middleware_disabled eq_refl)
    as (answer & Hout & Hstate & _ & Hnone & _).
  exists answer. split; [exact Hout|]. split; [exact Hstate|].
  exact (Hnone eq_refl).
Defined.

Lemma augment_query_contained_witness :
  config_mutex_ middleware_localhost = false
  /\ exists r flag,
       outcome_of (augment_query world_silent 1000000 0 7000000 "q" ""
                     middleware_localhost) = Returned r
       /\ state_of (augment_query world_silent 1000000 0 7000000 "q" ""
                      middleware_localhost) = middleware_localhost
       /\ network_calls
            (trace_of (augment_query world_silent 1000000 0 7000000 "q" ""
                         middleware_localhost)) <= 1
       /\ success r = Some flag.
Proof.
  exact (conj eq_refl
           (augment_query_contained world_silent 1000000 0 7000000 "q" ""
              middleware_localhost eq_refl)).
Defined.

Lemma augment_query_dispatch_failure_witness :
  config_mutex_ middleware_localhost = false
  /\ enabled (config_ middleware_localhost) = true
  /\ "q" <> ""
  /\ outcome_of (augment_query world_silent 1000000 0 7000000 "q" ""
                   middleware_localhost)
     = Returned
         {| augmented_context := ""; chunks := []; suggested_tools := [];
            latency_ms := Some (measured 1000000 0 7000000);
            success := Some false;
            error_message := "Failed to get response from Aurapai" |}.
Proof.
  assert (H3 : "q" <> "") by discriminate.
  split; [reflexivity|]. split; [reflexivity|]. split; [exact H3|].
  refine (augment_query_dispatch_failure world_silent 1000000 0 7000000 "q" ""
            middleware_localhost _ eq_refl eq_refl H3 eq_refl _).
  vm_compute. reflexivity.
Defined.

Lemma build_request_shape_witness :
  exists request,
    build_request "q" "s1" 5 (float_of_int 0) false = Ok request
    /\ member "session_id" request = Some (JStr "s1")
    /\ (forall key v, member key request = Some v -> In key request_keys).
Proof.
  destruct (build_request_shape "q" "s1" 5 (float_of_int 0) false)
    as (request & H1 & _ & _ & _ & _ & H6 & H7).
  exists request. split; [exact H1|]. split; [exact H6 | exact H7].
Defined.

Lemma parse_response_verdict_witness :
  first_fault payload_bad_chunk = Some fault_306
  /\ first_fault payload_two_chunks = None
  /\ (success (parse_response payload_bad_chunk) = Some false
      /\ error_message (parse_response payload_bad_chunk)
         = "Parse error: " ++ what fault_306)
  /\ (success (parse_response payload_two_chunks) = Some true
      /\ error_message (parse_response payload_two_chunks) = "").
Proof.
  split; [reflexivity|]. split; [reflexivity|]. split.
  - exact (proj2 (parse_response_verdict payload_bad_chunk) fault_306 eq_refl).
  - exact (proj1 (parse_response_verdict payload_two_chunks) eq_refl).
Defined.

Lemma parse_response_not_object_witness :
  (forall m, JArr [] <> JObj m)
  /\ parse_response (JArr [])
     = {| augmented_context := ""; chunks := []; suggested_tools := [];
          latency_ms := None; success := Some false;
          error_message :=
            "Parse error: "
            ++ what (type_error 306 "cannot use value() with array") |}.
Proof.
  assert (H : forall m : list (string * json), JArr [] <> JObj m)
    by (intros m; discriminate).
  exact (conj H (parse_response_not_object (JArr []) H)).
Defined.

Lemma parse_response_well_formed_witness :
  value get_string payload_two_chunks "augmented_context" "" = Ok "ctx"
  /\ value get_float payload_two_chunks "latency_ms" (float_of_int 0) = Ok 3%Z
  /\ Forall2 (fun j c => chunk_of j = Ok c)
       (elements (member "chunks" payload_two_chunks)) [chunk_a; chunk_b]
  /\ parse_response payload_two_chunks
     = {| augmented_context := "ctx"; chunks := [chunk_a; chunk_b];
          suggested_tools := ["search"; "calc"];
          latency_ms := Some 3%Z; success := Some true;
          error_message := "" |}.
Proof.
  assert (H3 : Forall2 (fun j c => chunk_of j = Ok c)
                 (elements (member "chunks" payload_two_chunks))
                 [chunk_a; chunk_b])
    by (repeat constructor).
  split; [reflexivity|]. split; [reflexivity|]. split; [exact H3|].
  exact (parse_response_well_formed payload_two_chunks "ctx" 3%Z
           [chunk_a; chunk_b] eq_refl eq_refl H3).
Defined.

Lemma parse_response_fault_in_chunks_witness :
  member "chunks" payload_bad_chunk
  = Some (JArr ([JObj [("content", JStr "a")]] ++ JInt 1 :: []))
  /\ chunk_of (JInt 1) = Raise fault_306
  /\ parse_response payload_bad_chunk
     = {| augmented_context := ""; chunks := [chunk_a]; suggested_tools := [];
          latency_ms := Some 0%Z; success := Some false;
          error_message := "Parse error: " ++ what fault_306 |}.
Proof.
  assert (H : Forall2 (fun j c => chunk_of j = Ok c)
                [JObj [("content", JStr "a")]] [chunk_a])
    by (repeat constructor).
  split; [reflexivity|]. split; [reflexivity|].
  exact (parse_response_fault_in_chunks payload_bad_chunk "" 0%Z
           [JObj [("content", JStr "a")]] [chunk_a] (JInt 1) [] fault_306
           eq_refl eq_refl eq_refl H eq_refl).
Defined.

Lemma parse_chunk_fields_witness :
  outcome_of (parse_chunk (JObj [("content", JStr "a")]) RAGResponse_decl)
  = Returned tt
  /\ (exists c,
        state_of (parse_chunk (JObj [("content", JStr "a")]) RAGResponse_decl)
        = push_chunk c RAGResponse_decl
        /\ content c = "a" /\ source c = "unknown"
        /\ similarity c = float_of_int 0)
  /\ parse_chunk (JInt 1) RAGResponse_decl
     = ([], RAGResponse_decl, Thrown fault_306).
Proof.
  split; [reflexivity|]. split.
  - exact (proj1 (parse_chunk_fields (JObj [("content", JStr "a")])
                    RAGResponse_decl)
             [("content", JStr "a")] eq_refl eq_refl).
  - refine (proj2 (parse_chunk_fields (JInt 1) RAGResponse_decl) _).
    intros m. discriminate.
Defined.

Lemma init_http_client_timeouts_witness :
  config_mutex_ middleware_localhost = false
  /\ (0 <= timeout_ms (config_ middleware_localhost))%Z
  /\ exists c sec usec,
       http_client_ (state_of (init_http_client world_bad_chunk
                                 middleware_localhost)) = Some c
       /\ cl_read_timeout c = Some (sec, usec)
       /\ cl_write_timeout c = Some (sec, usec)
       /\ (sec * 1000000 + usec = 5000 * 1000)%Z
       /\ (0 <= sec /\ 0 <= usec < 1000000)%Z.
Proof.
  assert (Hpos : (0 <= timeout_ms (config_ middleware_localhost))%Z)
    by (vm_compute; discriminate).
  split; [reflexivity|]. split; [exact Hpos|].
  destruct (init_http_client_timeouts world_bad_chunk middleware_localhost
              eq_refl) as (c & sec & usec & H1 & H2 & H3 & H4 & H5).
  exists c, sec, usec.
  split; [exact H1|]. split; [exact H2|]. split; [exact H3|].
  split; [exact H4 | exact (H5 Hpos)].
Defined.


Lemma update_config_deadlock_witness :
  config_mutex_ middleware_localhost = false
  /\ identity_changed (config_ middleware_localhost)
       (sample_config "other.example" true) = true
  /\ enabled (sample_config "other.example" true) = true
  /\ outcome_of (update_config world_bad_chunk
                   (sample_config "other.example" true) middleware_localhost)
     = Blocked
  /\ state_of (update_config world_bad_chunk
                 (sample_config "other.example" true) middleware_localhost)
     = with_config (sample_config "other.example" true) true
         middleware_localhost
  /\ Forall quiet
       (trace_of (update_config world_bad_chunk
                    (sample_config "other.example" true)
                    middleware_localhost)).
Proof.
  exact (conj eq_refl (conj eq_refl (conj eq_refl
           (update_config_deadlock world_bad_chunk
              (sample_config "other.example" true) middleware_localhost
              eq_refl eq_refl eq_refl)))).
Defined.

Lemma operations_wait_for_mutex_witness :
  config_mutex_ middleware_locked = true
  /\ enabled (config_ middleware_locked) = true
  /\ "q" <> ""
  /\ is_healthy world_ready middleware_locked
     = ([EvConfigRead], middleware_locked, Blocked)
  /\ outcome_of (augment_query world_ready 1000000 0 7000000 "q" ""
                   middleware_locked) = Blocked
  /\ network_calls
       (trace_of (augment_query world_ready 1000000 0 7000000 "q" ""
                    middleware_locked)) = 0.
Proof.
  assert (H3 : "q" <> "") by discriminate.
  split; [reflexivity|]. split; [reflexivity|]. split; [exact H3|].
  destruct (operations_wait_for_mutex world_ready 1000000 0 7000000 "q" ""
              middleware_locked eq_refl) as (_ & _ & _ & H4 & H5 & _).
  split; [exact (H4 eq_refl) | exact (H5 eq_refl H3)].
Defined.

Lemma connection_accessed_under_lock_witness :
  config_mutex_ middleware_localhost = false
  /\ connection_guarded false
       (trace_of (augment_query world_bad_chunk 1000000 0 7000000 "q" ""
                    middleware_localhost)) = true
  /\ connection_guarded false
       (trace_of (is_healthy world_bad_chunk middleware_localhost)) = true
  /\ connection_guarded false
       (trace_of (make_request world_bad_chunk augment_endpoint (JObj [])
                    middleware_localhost)) = true
  /\ connection_guarded false
       (trace_of (update_config world_bad_chunk sample_config_soft
                    middleware_localhost)) = true
  /\ connection_guarded false
       (trace_of (init_http_client world_bad_chunk middleware_localhost))
     = true.
Proof.
  exact (conj eq_refl
           (connection_accessed_under_lock world_bad_chunk 1000000 0 7000000
              "q" "" augment_endpoint (JObj []) sample_config_soft
              middleware_localhost eq_refl)).
Defined.

Lemma get_config_after_update_config_witness :
  config_mutex_ middleware_localhost = false
  /\ outcome_of
       (get_config
          (state_of (update_config world_bad_chunk sample_config_soft
                       middleware_localhost)))
     = Returned sample_config_soft.
Proof.
  exact (conj eq_refl
           (get_config_after_update_config world_bad_chunk sample_config_soft
              middleware_localhost eq_refl)).
Defined.

Lemma inject_context_keeps_turns_witness :
  (exists out,
     inject_context_into_messages sample_day
       (JArr (sample_transcript_head ++ [sample_user_turn])) "CTX" = Ok out)
  /\ forall out,
       inject_context_into_messages sample_day
         (JArr (sample_transcript_head ++ [sample_user_turn])) "CTX" = Ok out ->
       exists turns',
         out = JArr turns'
         /\ List.length turns' = 4
         /\ Forall2 same_but_content
              (sample_transcript_head ++ [sample_user_turn]) turns'.
Proof.
  split; [eexists; reflexivity|].
  intros out H.
  exact (inject_context_keeps_turns sample_day
           (sample_transcript_head ++ [sample_user_turn]) "CTX" out H).
Defined.

Lemma inject_context_twice_witness :
  obj_find "role" [("content", JStr "C"); ("role", JStr "user")]
  = Some (JStr "user")
  /\ text_content sample_user_turn = Some "C"
  /\ exists turn'',
       result_bind
         (inject_context_into_messages sample_day
            (JArr (sample_transcript_head ++ sample_user_turn :: [])) "ONE")
         (fun once => inject_context_into_messages sample_day once "TWO")
       = Ok (JArr (sample_transcript_head ++ turn'' :: []))
       /\ text_content turn''
          = Some (injection_of sample_day "TWO" ++ query_separator
                  ++ injection_of sample_day "ONE" ++ query_separator ++ "C")
       /\ same_but_content sample_user_turn turn''.
Proof.
  split; [reflexivity|]. split; [reflexivity|].
  exact (inject_context_twice sample_day sample_transcript_head []
           [("content", JStr "C"); ("role", JStr "user")] "C" "ONE" "TWO"
           eq_refl (fun t (H : In t []) => match H with end) eq_refl).
Defined.

Lemma format_rag_context_empty_iff_witness :
  format_rag_context [chunk_a] <> ""
  /\ injection_of sample_day (format_rag_context [chunk_a])
     = format_rag_context [chunk_a]
  /\ injection_of sample_day (format_rag_context []) = date_note sample_day.
Proof.
  split.
  - intros H.
    pose proof (proj1 (proj1 (format_rag_context_empty_iff sample_day [chunk_a]))
                  H) as E.
    discriminate E.
  - split.
    + exact (proj2 (format_rag_context_empty_iff sample_day [chunk_a])).
    + exact (proj2 (format_rag_context_empty_iff sample_day [])).
Defined.

Lemma gate_false_injection_unchanged_witness :
  member "rag_enabled" (JObj []) = None
  /\ should_use_rag (JArr sample_transcript_head_no_user) (JObj []) = Ok false
  /\ inject_context_into_messages sample_day
       (JArr sample_transcript_head_no_user) "CTX"
     = Ok (JArr sample_transcript_head_no_user).
Proof.
  exact (conj eq_refl (conj eq_refl
           (gate_false_injection_unchanged sample_day
              (JArr sample_transcript_head_no_user) (JObj []) "CTX"
              eq_refl eq_refl))).
Defined.

Lemma disabled_middleware_is_inert_witness :
  enabled (sample_config "localhost" false) = false
  /\ http_client_
       (state_of (RAGMiddleware_new world_bad_chunk
                    (sample_config "localhost" false))) = None
  /\ (exists r,
        augment_query world_bad_chunk 1000000 0 7000000 "q" ""
          (state_of (RAGMiddleware_new world_bad_chunk
                       (sample_config "localhost" false)))
        = ([EvConfigRead],
           state_of (RAGMiddleware_new world_bad_chunk
                       (sample_config "localhost" false)),
           Returned r)
        /\ success r = Some false
        /\ error_message r = "RAG disabled")
  /\ is_healthy world_bad_chunk
       (state_of (RAGMiddleware_new world_bad_chunk
                    (sample_config "localhost" false)))
     = ([EvConfigRead],
        state_of (RAGMiddleware_new world_bad_chunk
                    (sample_config "localhost" false)),
        Returned false).
Proof.
  exact (conj eq_refl
           (disabled_middleware_is_inert world_bad_chunk 1000000 0 7000000
              (sample_config "localhost" false) "q" "" eq_refl)).
Defined.

Lemma enabled_middleware_posts_witness :
  enabled (sample_config "localhost" true) = true
  /\ "q" <> ""
  /\ In (EvPost (built_client world_bad_chunk (sample_config "localhost" true))
           "/api/v1/llama/augment" "request" "application/json")
        (trace_of (augment_query world_bad_chunk 1000000 0 7000000 "q" ""
                     (state_of (RAGMiddleware_new world_bad_chunk
                                  (sample_config "localhost" true))))).
Proof.
  assert (H2 : "q" <> "") by discriminate.
  split; [reflexivity|]. split; [exact H2|].
  refine (enabled_middleware_posts world_bad_chunk 1000000 0 7000000
            (sample_config "localhost" true) "q" "" _ "request"
            eq_refl H2 eq_refl eq_refl).
Defined.

Lemma augment_query_answer_witness :
  config_mutex_ middleware_localhost = false
  /\ enabled (config_ middleware_localhost) = true
  /\ "q" <> ""
  /\ latency_ms (parse_response payload_two_chunks) = Some 3%Z
  /\ exists r,
       outcome_of (augment_query world_two_chunks 1000000 0 7000000 "q" ""
                     middleware_localhost) = Returned r
       /\ latency_ms r = Some (measured 1000000 0 7000000)
       /\ success r = Some true
       /\ chunks r = [chunk_a; chunk_b].
Proof.
  assert (H3 : "q" <> "") by discriminate.
  split; [reflexivity|]. split; [reflexivity|]. split; [exact H3|].
  split; [reflexivity|].
  destruct (augment_query_answer world_two_chunks 1000000 0 7000000 "q" ""
              middleware_localhost client_localhost
              (JObj [("include_tools", JBool false); ("max_results", JInt 5);
                     ("query", JStr "q");
                     ("similarity_threshold",
                      JFloat (double_of_float (float_of_int 0)))])
              "request" body_two_chunks payload_two_chunks
              eq_refl eq_refl H3 eq_refl eq_refl eq_refl eq_refl eq_refl)
    as (r & Hout & _ & Hlat & Hs & _ & Hchunks & _).
  exists r. split; [exact Hout|]. split; [exact Hlat|].
  split; [exact Hs | exact Hchunks].
Defined.

Lemma inject_context_fault_condition_witness :
  last_user_turn (JArr (sample_transcript_head ++ [JObj sample_parts_turn]))
  = Some (JObj sample_parts_turn)
  /\ inject_context_into_messages sample_day
       (JArr (sample_transcript_head ++ [JObj sample_parts_turn])) "CTX"
     = Raise (type_error 302 "type must be string, but is array")
  /\ inject_context_into_messages sample_day
       (JArr sample_transcript_head_no_user) "CTX"
     = Ok (JArr sample_transcript_head_no_user)
  /\ exists out,
       inject_context_into_messages sample_day
         (JArr (sample_transcript_head ++ [sample_user_turn])) "CTX" = Ok out.
Proof.
  split; [reflexivity|]. split; [|split].
  - exact (proj1 (proj2 (inject_context_fault_condition sample_day
                           (JArr (sample_transcript_head
                                  ++ [JObj sample_parts_turn])) "CTX")
                    (JObj sample_parts_turn) eq_refl)
             (JArr [JObj [("text", JStr "hi"); ("type", JStr "text")]])
             eq_refl eq_refl).
  - exact (proj1 (inject_context_fault_condition sample_day
                    (JArr sample_transcript_head_no_user) "CTX") eq_refl).
  - refine (proj2 (proj2 (inject_context_fault_condition sample_day
                            (JArr (sample_transcript_head
                                   ++ [sample_user_turn])) "CTX")
                     sample_user_turn eq_refl) _).
    intros v [= <-]. reflexivity.
Defined.
